(** * SkellySim ParaView glue scripts: a shallow embedding

    The repository's three scripts live in [utils/init_paraview.py] and
    [utils/paraview_utils/{fiber,body}_reader.py].  The two readers are
    callback bodies of a ParaView programmable source: they pick a time
    index, ask [trajectory_utility.load_frame] for a frame (a tree of
    dictionaries and lists decoded from the trajectory file) and push the
    frame into toolkit containers.

    The embedding keeps the scripts' dynamic typing: a frame is a Python
    value, every subscript, iteration and toolkit call can raise, and a
    raise aborts the script.  The calls to [load_frame] and the slices taken
    from record buffers are logged so that statements about "what is passed"
    and "what is accessed" are statements about the run. *)

From Stdlib Require Import ZArith List String Bool Lia Arith.
From Stdlib Require Import Floats.SpecFloat.
Import ListNotations.

Open Scope string_scope.
Open Scope list_scope.

(** ** Python values and faults *)

Module Py.

(** The part of Python's value universe that a decoded frame is made of. *)
#[local] Set Warnings "-register-all".
Inductive pyval : Type :=
| PyNone
| PyInt (z : Z)
| PyFloat (f : spec_float)
| PyStr (s : string)
| PyList (l : list pyval)
| PyDict (d : list (string * pyval)).

(** [int] and [float] objects, the only values [int(...)] and the toolkit's
    [double] parameters accept here. *)
Inductive number : Type :=
| NInt (z : Z)
| NFloat (f : spec_float).

Inductive exn : Type :=
| KeyError (k : string)
| TypeError
| ValueError
| OverflowError
| OtherError (msg : string).

Inductive result (A : Type) : Type :=
| Ok (a : A)
| Raise (e : exn).
Arguments Ok {A} a.
Arguments Raise {A} e.

(** What a run leaves behind besides its value. *)
Inductive event : Type :=
| EvLoadFrame (index : Z)
| EvSlice (len : nat) (lo : Z) (hi : option Z).

(** A computation yields its log and either a value or the fault that cut
    it short.  Nothing in the scripts catches a fault, so [bind] is the only
    way two steps are ever composed. *)
Definition M (A : Type) : Type := (list event * result A)%type.

Definition ret {A} (a : A) : M A := ([], Ok a).
Definition raise {A} (e : exn) : M A := ([], Raise e).
Definition emit (ev : event) : M unit := ([ev], Ok tt).
Definition lift {A} (r : result A) : M A := ([], r).

Definition bind {A B} (c : M A) (k : A -> M B) : M B :=
  match c with
  | (l1, Ok a) => let '(l2, r) := k a in (l1 ++ l2, r)
  | (l1, Raise e) => (l1, Raise e)
  end.

Definition log_of {A} (c : M A) : list event := fst c.
Definition outcome {A} (c : M A) : result A := snd c.

Definition raises {A} (c : M A) : Prop := exists e, outcome c = Raise e.
Definition returns {A} (c : M A) : Prop := exists a, outcome c = Ok a.

Declare Scope py_scope.
Delimit Scope py_scope with py.
Notation "x <- c ;; k" := (bind c (fun x => k))
  (at level 61, c at next level, right associativity) : py_scope.
Notation "c ;;; k" := (bind c (fun _ => k))
  (at level 61, right associativity) : py_scope.
Open Scope py_scope.

(** [for x in xs: body], threading the script's variables [s]. *)
Fixpoint for_each {A S} (body : S -> A -> M S) (xs : list A) (s : S) : M S :=
  match xs with
  | [] => ret s
  | x :: xs' => s' <- body s x ;; for_each body xs' s'
  end.

(** *** Built-in operations *)

Fixpoint dict_find (k : string) (d : list (string * pyval)) : option pyval :=
  match d with
  | [] => None
  | (k', v) :: d' => if String.eqb k k' then Some v else dict_find k d'
  end.

(** [v[k]] for a string key [k]. *)
Definition getitem (v : pyval) (k : string) : result pyval :=
  match v with
  | PyDict d =>
      match dict_find k d with
      | Some x => Ok x
      | None => Raise (KeyError k)
      end
  | _ => Raise TypeError
  end.

(** Python's clamping of a slice bound against a length. *)
Definition clamp (len : Z) (i : Z) : Z :=
  if (i <? 0)%Z then Z.max 0 (i + len) else Z.min i len.

Definition slice_bounds (len : nat) (lo : Z) (hi : option Z) : nat * nat :=
  let n := Z.of_nat len in
  let a := clamp n lo in
  let b := match hi with Some h => clamp n h | None => n end in
  (Z.to_nat a, Z.to_nat (b - a)).

Definition slice_list {A} (l : list A) (lo : Z) (hi : option Z) : list A :=
  let '(start, count) := slice_bounds (List.length l) lo hi in
  firstn count (skipn start l).

Definition slice_string (s : string) (lo : Z) (hi : option Z) : string :=
  let '(start, count) := slice_bounds (String.length s) lo hi in
  String.substring start count s.

(** [v[lo:hi]]; [hi = None] is the open slice [v[lo:]].  A slice of a list
    or a string never raises for being out of range: it is cut down to what
    is there.  Values that cannot be sliced raise (for a dictionary the
    fault is rendered as [TypeError] here). *)
Definition getslice (v : pyval) (lo : Z) (hi : option Z) : M pyval :=
  match v with
  | PyList l =>
      emit (EvSlice (List.length l) lo hi) ;;;
      ret (PyList (slice_list l lo hi))
  | PyStr s =>
      emit (EvSlice (String.length s) lo hi) ;;;
      ret (PyStr (slice_string s lo hi))
  | _ => raise TypeError
  end.

Fixpoint chars (s : string) : list pyval :=
  match s with
  | EmptyString => []
  | String c s' => PyStr (String c EmptyString) :: chars s'
  end.

(** The items a [for] loop draws from [v]. *)
Definition iter (v : pyval) : result (list pyval) :=
  match v with
  | PyList l => Ok l
  | PyDict d => Ok (map (fun kv => PyStr (fst kv)) d)
  | PyStr s => Ok (chars s)
  | _ => Raise TypeError
  end.

(** [range(n)]. *)
Definition range (n : pyval) : result (list Z) :=
  match n with
  | PyInt z => Ok (map Z.of_nat (seq 0 (Z.to_nat z)))
  | _ => Raise TypeError
  end.

(** [int(x)] on a number: truncation toward zero; an infinity or a NaN has
    no integer value. *)
Definition int (x : number) : result Z :=
  match x with
  | NInt z => Ok z
  | NFloat (S754_zero _) => Ok 0%Z
  | NFloat (S754_finite s m e) =>
      let mag := Z.shiftl (Z.pos m) e in
      Ok (if s then (- mag)%Z else mag)
  | NFloat (S754_infinity _) => Raise OverflowError
  | NFloat S754_nan => Raise ValueError
  end.

Definition as_number (v : pyval) : option number :=
  match v with
  | PyInt z => Some (NInt z)
  | PyFloat f => Some (NFloat f)
  | _ => None
  end.

End Py.
Import Py.

(** ** The toolkit objects the readers fill *)

Module Vtk.

Definition point3 : Type := (number * number * number)%type.

(** A [const double x[3]] parameter takes a sequence of exactly three
    numbers; anything else is rejected by the wrapper with a [TypeError].
    The numbers are kept as passed. *)
Definition as_double3 (v : pyval) : result point3 :=
  match v with
  | PyList [a; b; c] =>
      match as_number a, as_number b, as_number c with
      | Some x, Some y, Some z => Ok (x, y, z)
      | _, _, _ => Raise TypeError
      end
  | _ => Raise TypeError
  end.

(** An integer parameter takes an [int]. *)
Definition as_id (v : pyval) : result Z :=
  match v with
  | PyInt z => Ok z
  | _ => Raise TypeError
  end.

(** Writing slot [i] of a growable array: slots skipped over are left
    unset. *)
Fixpoint set_slot {A} (i : nat) (a : A) (l : list (option A)) : list (option A) :=
  match i, l with
  | O, [] => [Some a]
  | O, _ :: l' => Some a :: l'
  | S i', [] => None :: set_slot i' a []
  | S i', x :: l' => x :: set_slot i' a l'
  end.

(** [vtkPoints]. *)
Definition vtkPoints : Type := list (option point3).
Definition vtkPoints_new : vtkPoints := [].
Definition InsertPoint (id : nat) (x : pyval) (pts : vtkPoints) : result vtkPoints :=
  match as_double3 x with
  | Ok p => Ok (set_slot id p pts)
  | Raise e => Raise e
  end.

(** [vtkCellArray]: each cell carries the size announced when it was opened
    and the point ids inserted into it since. *)
Record cell : Type := { npts : Z; ids : list nat }.
Definition vtkCellArray : Type := list cell.
Definition vtkCellArray_new : vtkCellArray := [].

Definition InsertNextCell (n : pyval) (lines : vtkCellArray) : result vtkCellArray :=
  match as_id n with
  | Ok z => Ok (lines ++ [{| npts := z; ids := [] |}])
  | Raise e => Raise e
  end.

Fixpoint InsertCellPoint (id : nat) (lines : vtkCellArray) : vtkCellArray :=
  match lines with
  | [] => []
  | [c] => [{| npts := npts c; ids := ids c ++ [id] |}]
  | c :: rest => c :: InsertCellPoint id rest
  end.

(** [vtkPolyLine], as far as the script touches it: the length of its id
    list. *)
Record vtkPolyLine : Type := { num_ids : Z }.
Definition vtkPolyLine_new : vtkPolyLine := {| num_ids := 0 |}.
Definition SetNumberOfIds (n : pyval) (pl : vtkPolyLine) : result vtkPolyLine :=
  match as_id n with
  | Ok z => Ok {| num_ids := z |}
  | Raise e => Raise e
  end.

(** [vtkPolyData] output of the fibers source. *)
Record vtkPolyData : Type := { Points : vtkPoints; Lines : vtkCellArray }.

(** [vtkSphereSource]: the surface it generates is determined by these four
    settings, which stand for it. *)
Record vtkSphereSource : Type :=
  { Radius : spec_float;
    Center : point3;
    ThetaResolution : Z;
    PhiResolution : Z }.

Definition zero3 : point3 := (NFloat (S754_zero false), NFloat (S754_zero false), NFloat (S754_zero false)).
Definition vtkSphereSource_new : vtkSphereSource :=
  {| Radius := S754_finite false 4503599627370496 (-53);
     Center := zero3;
     ThetaResolution := 8;
     PhiResolution := 8 |}.

Definition SetRadius (r : spec_float) (s : vtkSphereSource) : vtkSphereSource :=
  {| Radius := r; Center := Center s;
     ThetaResolution := ThetaResolution s; PhiResolution := PhiResolution s |}.
Definition SetCenter (x : pyval) (s : vtkSphereSource) : result vtkSphereSource :=
  match as_double3 x with
  | Ok c => Ok {| Radius := Radius s; Center := c;
                  ThetaResolution := ThetaResolution s; PhiResolution := PhiResolution s |}
  | Raise e => Raise e
  end.
Definition SetThetaResolution (n : Z) (s : vtkSphereSource) : vtkSphereSource :=
  {| Radius := Radius s; Center := Center s;
     ThetaResolution := n; PhiResolution := PhiResolution s |}.
Definition SetPhiResolution (n : Z) (s : vtkSphereSource) : vtkSphereSource :=
  {| Radius := Radius s; Center := Center s;
     ThetaResolution := ThetaResolution s; PhiResolution := n |}.

(** [vtkMultiBlockDataSet]: [SetBlock] grows the block list as needed. *)
Definition vtkMultiBlockDataSet : Type := list (option vtkSphereSource).
Definition vtkMultiBlockDataSet_new : vtkMultiBlockDataSet := [].
Definition SetBlock (blockno : nat) (s : vtkSphereSource)
    (mb : vtkMultiBlockDataSet) : vtkMultiBlockDataSet :=
  set_slot blockno s mb.

(** The output information object, as far as the readers consult it: the
    requested time step, a [double] when the pipeline has set it. *)
Record vtkInformation : Type := { UPDATE_TIME_STEP : option spec_float }.
Definition Has_UPDATE_TIME_STEP (i : vtkInformation) : bool :=
  match UPDATE_TIME_STEP i with Some _ => true | None => false end.
Definition Get_UPDATE_TIME_STEP (i : vtkInformation) : spec_float :=
  match UPDATE_TIME_STEP i with Some t => t | None => S754_zero false end.

(** [self] of a programmable source: the attributes the request script
    stored on it and its output information. *)
Record source (FHS FPOS : Type) : Type :=
  { fhs : FHS; fpos : FPOS; GetOutputInformation : nat -> vtkInformation }.
Arguments fhs {FHS FPOS} s.
Arguments fpos {FHS FPOS} s.
Arguments GetOutputInformation {FHS FPOS} s port.

End Vtk.
Import Vtk.

(** ** [paraview_utils/fiber_reader.py] *)

Module FiberReader.
Section Script.

Variables FHS FPOS : Type.
(** [trajectory_utility.load_frame], which the repository keeps outside the
    scripts embedded here: any function from an index to a frame or a
    fault. *)
Variable load_frame : FHS -> FPOS -> Z -> result pyval.

(** The script's variables that live across loop iterations. *)
Record vars : Type :=
  { pts : vtkPoints; lines : vtkCellArray; offset : nat; pl : option vtkPolyLine }.

(** Lines 6-9. *)
Definition time (outInfo : vtkInformation) : number :=
  if Has_UPDATE_TIME_STEP outInfo
  then NFloat (Get_UPDATE_TIME_STEP outInfo)
  else NInt 0.

(** Line 11. *)
Definition frame_of (self : source FHS FPOS) : M pyval :=
  let outInfo := GetOutputInformation self 0 in
  index <- lift (int (time outInfo)) ;;
  emit (EvLoadFrame index) ;;;
  lift (load_frame (fhs self) (fpos self) index).

(** Lines 23-26, one turn of [for i in range(n_nodes)]. *)
Definition point_step (fib : pyval) (v : vars) (i : Z) : M vars :=
  let low := (3 + i * 3)%Z in
  let lines' := InsertCellPoint (offset v) (lines v) in
  x <- lift (getitem fib "x_") ;;
  xs <- getslice x low (Some (low + 3)%Z) ;;
  pts' <- lift (InsertPoint (offset v) xs (pts v)) ;;
  ret {| pts := pts'; lines := lines'; offset := offset v + 1; pl := pl v |}.

(** Lines 17-26, one turn of [for fib in frame["fibers"]]. *)
Definition fiber_step (v : vars) (fib : pyval) : M vars :=
  n_nodes <- lift (getitem fib "n_nodes_") ;;
  lines' <- lift (InsertNextCell n_nodes (lines v)) ;;
  pl' <- lift (SetNumberOfIds n_nodes vtkPolyLine_new) ;;
  indices <- lift (range n_nodes) ;;
  for_each (point_step fib) indices
    {| pts := pts v; lines := lines'; offset := offset v; pl := Some pl' |}.

Definition init : vars :=
  {| pts := vtkPoints_new; lines := vtkCellArray_new; offset := 0; pl := None |}.

(** Lines 13-26. *)
Definition build (frame : pyval) : M vars :=
  fibers <- lift (getitem frame "fibers") ;;
  items <- lift (iter fibers) ;;
  for_each fiber_step items init.

(** Lines 13-30: what the script makes of a loaded frame.  Its value is what
    lines 28-30 store in the source's poly data output; when a fault cuts
    the loops short those lines are not reached and the output is not
    touched. *)
Definition output (frame : pyval) : M vtkPolyData :=
  v <- build frame ;;
  ret {| Points := pts v; Lines := lines v |}.

(** The whole script. *)
Definition fiber_reader (self : source FHS FPOS) : M vtkPolyData :=
  frame <- frame_of self ;;
  output frame.

(** The script without lines 19-20. *)
Definition fiber_step_no_pl (v : vars) (fib : pyval) : M vars :=
  n_nodes <- lift (getitem fib "n_nodes_") ;;
  lines' <- lift (InsertNextCell n_nodes (lines v)) ;;
  indices <- lift (range n_nodes) ;;
  for_each (point_step fib) indices
    {| pts := pts v; lines := lines'; offset := offset v; pl := pl v |}.

Definition build_no_pl (frame : pyval) : M vars :=
  fibers <- lift (getitem frame "fibers") ;;
  items <- lift (iter fibers) ;;
  for_each fiber_step_no_pl items init.

Definition output_no_pl (frame : pyval) : M vtkPolyData :=
  v <- build_no_pl frame ;;
  ret {| Points := pts v; Lines := lines v |}.

Definition fiber_reader_no_pl (self : source FHS FPOS) : M vtkPolyData :=
  frame <- frame_of self ;;
  output_no_pl frame.

End Script.
Arguments frame_of {FHS FPOS} load_frame self.
Arguments fiber_reader {FHS FPOS} load_frame self.
Arguments fiber_reader_no_pl {FHS FPOS} load_frame self.
End FiberReader.

(** ** [paraview_utils/body_reader.py] *)

Module BodyReader.
Section Script.

Variables FHS FPOS : Type.
Variable load_frame : FHS -> FPOS -> Z -> result pyval.

Record vars : Type := { mb : vtkMultiBlockDataSet; offset : nat }.

(** The literal [0.5]. *)
Definition half : spec_float := S754_finite false 4503599627370496 (-53).

(** Lines 6-9. *)
Definition time (outInfo : vtkInformation) : number :=
  if Has_UPDATE_TIME_STEP outInfo
  then NFloat (Get_UPDATE_TIME_STEP outInfo)
  else NInt 0.

(** Line 11. *)
Definition frame_of (self : source FHS FPOS) : M pyval :=
  let outInfo := GetOutputInformation self 0 in
  index <- lift (int (time outInfo)) ;;
  emit (EvLoadFrame index) ;;;
  lift (load_frame (fhs self) (fpos self) index).

(** Lines 16-22: the sphere source set up for one body.  [s.Update()] and
    [s.GetOutput()] then yield the surface its settings determine. *)
Definition sphere_of (body : pyval) : M vtkSphereSource :=
  position_ <- lift (getitem body "position_") ;;
  position <- getslice position_ 3 None ;;
  let s := SetRadius half vtkSphereSource_new in
  s <- lift (SetCenter position s) ;;
  let s := SetThetaResolution 32 s in
  let s := SetPhiResolution 32 s in
  ret s.

(** Lines 16-24, one turn of [for body in frame["bodies"]]. *)
Definition body_step (v : vars) (body : pyval) : M vars :=
  s <- sphere_of body ;;
  ret {| mb := SetBlock (offset v) s (mb v); offset := offset v + 1 |}.

Definition init : vars := {| mb := vtkMultiBlockDataSet_new; offset := 0 |}.

(** Lines 13-24. *)
Definition build (frame : pyval) : M vars :=
  bodies <- lift (getitem frame "bodies") ;;
  items <- lift (iter bodies) ;;
  for_each body_step items init.

(** Lines 13-26: what the script makes of a loaded frame.  Its value is what
    line 26 copies into the source's output. *)
Definition output (frame : pyval) : M vtkMultiBlockDataSet :=
  v <- build frame ;;
  ret (mb v).

(** The whole script. *)
Definition body_reader (self : source FHS FPOS) : M vtkMultiBlockDataSet :=
  frame <- frame_of self ;;
  output frame.

End Script.
Arguments frame_of {FHS FPOS} load_frame self.
Arguments body_reader {FHS FPOS} load_frame self.
End BodyReader.

(** ** [utils/init_paraview.py] *)

Module InitParaview.

(** Numeric literals of the script, kept as written. *)
Inductive literal : Type :=
| LInt (z : Z)
| LDecimal (mantissa : Z) (exponent : Z)
| LQuotient (p q : Z).

(** A pipeline proxy of the session; other proxies are named by their
    position in the session's list. *)
Inductive proxy : Type :=
| ProgrammableSource
    (PythonPath Script ScriptRequestInformation OutputDataSetType guiName : string)
| Tube (Input : nat) (properties : list (string * literal))
| Smooth (Input : nat) (properties : list (string * literal)).

Definition is_source (p : proxy) : bool :=
  match p with ProgrammableSource _ _ _ _ _ => true | _ => false end.
Definition is_filter (p : proxy) : bool := negb (is_source p).

Definition set_property (name : string) (v : literal) (p : proxy) : proxy :=
  match p with
  | Tube i props => Tube i (props ++ [(name, v)])
  | Smooth i props => Smooth i (props ++ [(name, v)])
  | other => other
  end.

(** The session the script runs in: the proxies created so far, the active
    source, the proxies shown in the view and the display properties set on
    their representations. *)
Record session : Type :=
  { proxies : list proxy;
    active : option nat;
    shown : list nat;
    display : list (nat * (string * list literal)) }.

Definition empty : session :=
  {| proxies := []; active := None; shown := []; display := [] |}.

(** Creating a proxy registers it and makes it the active source. *)
Definition create (p : proxy) (s : session) : nat * session :=
  let id := List.length (proxies s) in
  (id, {| proxies := proxies s ++ [p]; active := Some id;
          shown := shown s; display := display s |}).

Fixpoint update {A} (i : nat) (f : A -> A) (l : list A) : list A :=
  match i, l with
  | _, [] => []
  | O, x :: l' => f x :: l'
  | S i', x :: l' => x :: update i' f l'
  end.

Definition setattr (id : nat) (name : string) (v : literal) (s : session) : session :=
  {| proxies := update id (set_property name v) (proxies s); active := active s;
     shown := shown s; display := display s |}.

Definition Show (id : nat) (s : session) : session :=
  {| proxies := proxies s; active := active s;
     shown := shown s ++ [id]; display := display s |}.

(** Without a proxy argument the properties go to the active source. *)
Definition SetDisplayProperties (name : string) (v : list literal) (s : session) : session :=
  match active s with
  | Some id => {| proxies := proxies s; active := active s; shown := shown s;
                  display := display s ++ [(id, (name, v))] |}
  | None => s
  end.

Section Script.

(** The directory of the script file and the contents of the files it
    opens. *)
Variable script_dir : string.
Variable read : string -> string.

Definition path_join (a b : string) : string := a ++ "/" ++ b.

Definition sourcepath : string := path_join script_dir "paraview_utils".

Definition init_paraview (s0 : session) : session :=
  let '(fibers, s) :=
    create (ProgrammableSource
              ("'" ++ sourcepath ++ "'")
              (read (path_join sourcepath "fiber_reader.py"))
              (read (path_join sourcepath "fiber_reader_request.py"))
              "vtkPolyData"
              "Fibers") s0 in
  let '(tf, s) := create (Tube fibers []) s in
  let s := setattr tf "Radius" (LDecimal 25 (-3)) s in
  let s := setattr tf "Capping" (LInt 1) s in
  let s := setattr tf "NumberofSides" (LInt 10) s in
  let s := Show tf s in
  let s := SetDisplayProperties "DiffuseColor"
             [LQuotient 0 255; LQuotient 255 255; LQuotient 127 255] s in
  let '(bodies, s) :=
    create (ProgrammableSource
              ("'" ++ sourcepath ++ "'")
              (read (path_join sourcepath "body_reader.py"))
              (read (path_join sourcepath "body_reader_request.py"))
              "vtkMultiblockDataSet"
              "Bodies") s in
  let '(sf, s) := create (Smooth bodies []) s in
  let s := Show sf s in
  let s := SetDisplayProperties "DiffuseColor"
             [LQuotient 143 255; LQuotient 255 255; LQuotient 246 255] s in
  s.

End Script.
End InitParaview.

(** ** What the readers take from a record *)

Module Layout.

(** Lines 23-25: the three coordinates read for node [i] of [fib]. *)
Definition node (fib : pyval) (i : Z) : result point3 :=
  outcome (x <- lift (getitem fib "x_") ;;
           xs <- getslice x (3 + i * 3)%Z (Some (3 + i * 3 + 3)%Z) ;;
           lift (as_double3 xs)).

(** [fib] reads as a fiber that announces [n] nodes and whose nodes are
    [ps]. *)
Definition reads_fiber (fib : pyval) (n : Z) (ps : list point3) : Prop :=
  getitem fib "n_nodes_" = Ok (PyInt n) /\
  Forall2 (fun i p => node fib i = Ok p) (map Z.of_nat (seq 0 (Z.to_nat n))) ps.

Definition readable_fiber (fib : pyval) : Prop :=
  exists n ps, reads_fiber fib n ps.

(** The cells of fibers read one after the other, the first point of the
    first one getting id [start]. *)
Fixpoint cells_from (start : nat) (recs : list (Z * list point3)) : vtkCellArray :=
  match recs with
  | [] => []
  | (n, ps) :: recs' =>
      {| npts := n; ids := seq start (List.length ps) |}
      :: cells_from (start + List.length ps) recs'
  end.

(** The records the outer loop of a reader runs over ([frame["fibers"]],
    [frame["bodies"]]). *)
Definition items_of (key : string) (frame : pyval) : result (list pyval) :=
  match getitem frame key with
  | Ok collection => iter collection
  | Raise e => Raise e
  end.

Definition points_of (recs : list (Z * list point3)) : vtkPoints :=
  map Some (List.concat (map snd recs)).

(** Lines 16-19 of the body reader: the centre read for [body]. *)
Definition center (body : pyval) : result point3 :=
  outcome (position_ <- lift (getitem body "position_") ;;
           position <- getslice position_ 3 None ;;
           lift (as_double3 position)).

Definition sphere (c : point3) : vtkSphereSource :=
  {| Radius := BodyReader.half; Center := c;
     ThetaResolution := 32; PhiResolution := 32 |}.

Definition blocks_of (cs : list point3) : vtkMultiBlockDataSet :=
  map (fun c => Some (sphere c)) cs.

Definition fiber_records (items : list pyval) (recs : list (Z * list point3)) : Prop :=
  Forall2 (fun fib r => reads_fiber fib (fst r) (snd r)) items recs.

Definition body_centers (items : list pyval) (cs : list point3) : Prop :=
  Forall2 (fun body c => center body = Ok c) items cs.

End Layout.
Import Layout.

(** ** Vocabulary of the statements *)

Module Run.

(** The indices [load_frame] was called with, in call order. *)
Fixpoint load_calls (log : list event) : list Z :=
  match log with
  | [] => []
  | EvLoadFrame k :: log' => k :: load_calls log'
  | EvSlice _ _ _ :: log' => load_calls log'
  end.

(** A slice that asks for nothing beyond the buffer it is taken from. *)
Definition in_bounds (ev : event) : Prop :=
  match ev with
  | EvLoadFrame _ => True
  | EvSlice len lo (Some hi) => (0 <= lo <= hi)%Z /\ (hi <= Z.of_nat len)%Z
  | EvSlice len lo None => (0 <= lo <= Z.of_nat len)%Z
  end.

(** Entries [start], [start + 1], [start + 2] of a buffer, when they are
    there and are numbers. *)
Definition triple_at (x : list pyval) (start : nat) : option point3 :=
  match nth_error x start, nth_error x (start + 1), nth_error x (start + 2) with
  | Some a, Some b, Some c =>
      match as_number a, as_number b, as_number c with
      | Some u, Some v, Some w => Some (u, v, w)
      | _, _, _ => None
      end
  | _, _, _ => None
  end.

(** Point [i] of the polyline drawn for fiber [k]: the point the [i]-th id
    of cell [k] refers to. *)
Definition polyline_point (out : vtkPolyData) (k i : nat) : option point3 :=
  match nth_error (Lines out) k with
  | Some c =>
      match nth_error (ids c) i with
      | Some id =>
          match nth_error (Points out) id with
          | Some (Some p) => Some p
          | _ => None
          end
      | None => None
      end
  | None => None
  end.

Definition numeric (v : pyval) : Prop := as_number v <> None.

(** A fiber record of [n] nodes as the trajectory holds it: the count and a
    buffer with the three-entry header followed by at least [3 * n]
    coordinates. *)
Definition well_formed_fiber (fib : pyval) (n : nat) : Prop :=
  getitem fib "n_nodes_" = Ok (PyInt (Z.of_nat n)) /\
  exists x, getitem fib "x_" = Ok (PyList x) /\
            3 + 3 * n <= List.length x /\
            Forall numeric (firstn (3 * n) (skipn 3 x)).

(** A body record: the header followed by the three coordinates. *)
Definition well_formed_body (body : pyval) : Prop :=
  exists x, getitem body "position_" = Ok (PyList x) /\
            List.length x = 6 /\ Forall numeric (skipn 3 x).

(** The records on which the loops go through. *)
Definition acceptable_fiber (fib : pyval) : Prop :=
  exists n, getitem fib "n_nodes_" = Ok (PyInt n) /\
    forall i, i < Z.to_nat n ->
      exists x p, getitem fib "x_" = Ok (PyList x) /\
                  triple_at x (3 + 3 * i) = Some p.

Definition acceptable_body (body : pyval) : Prop :=
  exists x c, getitem body "position_" = Ok (PyList x) /\
              List.length x = 6 /\ triple_at x 3 = Some c.

(** The length a slice of [v] is cut against. *)
Definition sliced_length (v : pyval) : option nat :=
  match v with
  | PyList l => Some (List.length l)
  | PyStr s => Some (String.length s)
  | _ => None
  end.

(** A fiber record whose count and buffer length are consistent: the buffer
    is at least as long as the header and the announced nodes take. *)
Definition consistent_fiber (fib : pyval) : Prop :=
  exists n x, getitem fib "n_nodes_" = Ok (PyInt n) /\
              getitem fib "x_" = Ok (PyList x) /\
              (3 + 3 * n <= Z.of_nat (List.length x))%Z.

(** A step that never calls the loader. *)
Definition quiet {A} (c : M A) : Prop := load_calls (log_of c) = [].

(** Two runs that leave the same log and end alike: with related values or
    with the same fault. *)
Definition sim {S} (R : S -> S -> Prop) (c d : M S) : Prop :=
  log_of c = log_of d /\
  match outcome c, outcome d with
  | Ok a, Ok b => R a b
  | Raise e, Raise e' => e = e'
  | _, _ => False
  end.

(** Variables of the fiber reader that agree on all but [pl]. *)
Definition agree (v w : FiberReader.vars) : Prop :=
  FiberReader.pts v = FiberReader.pts w /\
  FiberReader.lines v = FiberReader.lines w /\
  FiberReader.offset v = FiberReader.offset w.

End Run.
Import Run.

(** ** Sample inputs *)

Module Sample.

Definition f (mantissa : positive) (exponent : Z) : pyval :=
  PyFloat (S754_finite false mantissa exponent).

(** An Eigen matrix as the trajectory stores it: a three-entry header, then
    the coefficients. *)
Definition eigen (rows cols : Z) (data : list pyval) : pyval :=
  PyList (PyStr "__eigen__" :: PyInt rows :: PyInt cols :: data).

Definition fiber (n : Z) (data : list pyval) : pyval :=
  PyDict [("n_nodes_", PyInt n); ("x_", eigen 3 n data)].

Definition body (data : list pyval) : pyval :=
  PyDict [("position_", eigen 3 1 data)].

Definition frame (fibers bodies : list pyval) : pyval :=
  PyDict [("fibers", PyList fibers); ("bodies", PyList bodies)].

(** Two fibers (two nodes, one node) and two bodies. *)
Definition fibers0 : list pyval :=
  [fiber 2 [f 1 0; f 2 0; f 3 0; f 4 0; f 5 0; f 6 0];
   fiber 1 [f 7 0; f 8 0; f 9 0]].

Definition bodies0 : list pyval :=
  [body [f 1 0; f 1 0; f 1 0]; body [f 2 0; f 2 0; PyInt 5]].

Definition frame0 : pyval := frame fibers0 bodies0.

(** A one-node fiber whose buffer holds numbers from its very start. *)
Definition buffer1 : list pyval :=
  [PyInt 10; PyInt 20; PyInt 30; PyInt 1; PyInt 2; PyInt 3].

Definition fiber1 : pyval :=
  PyDict [("n_nodes_", PyInt 1); ("x_", PyList buffer1)].

(** A body whose position holds numbers from its very start. *)
Definition body1 : pyval := PyDict [("position_", PyList buffer1)].

Definition frame1 : pyval := frame [fiber1] [body1].

(** A body whose position is a bare three-vector. *)
Definition body2 : pyval :=
  PyDict [("position_", PyList [PyInt 1; PyInt 2; PyInt 3])].

(** A fiber whose node count is the float 2.0. *)
Definition fiber2 : pyval :=
  PyDict [("n_nodes_", f 1 1);
          ("x_", eigen 3 2 [f 1 0; f 2 0; f 3 0; f 4 0; f 5 0; f 6 0])].

Definition frame2 : pyval := frame [fiber2] [body2].

Definition loader (frames : list pyval) (_ _ : unit) (index : Z) : result pyval :=
  match nth_error frames (Z.to_nat index) with
  | Some fr => Ok fr
  | None => Raise (OtherError "no such frame")
  end.

Definition self (t : option spec_float) : source unit unit :=
  {| fhs := tt; fpos := tt;
     GetOutputInformation := fun _ => {| UPDATE_TIME_STEP := t |} |}.

(** Time 2.5 *)
Definition t2_5 : spec_float := S754_finite false 5 (-1).

End Sample.

(** ** Vocabulary of further statements *)

Module More.

(** A fiber record on which one turn of the outer loop cannot go through,
    and the fault it ends with: the node count is not there, is not an
    [int], or, with at least one node announced, the buffer is not there or
    is a list too short to hold the header and one point. *)
Definition fiber_defect (fib : pyval) (e : exn) : Prop :=
  getitem fib "n_nodes_" = Raise e \/
  (exists v, getitem fib "n_nodes_" = Ok v /\ as_id v = Raise e) \/
  (exists n, getitem fib "n_nodes_" = Ok (PyInt n) /\ (1 <= n)%Z /\
             getitem fib "x_" = Raise e) \/
  (exists n x, getitem fib "n_nodes_" = Ok (PyInt n) /\ (1 <= n)%Z /\
               getitem fib "x_" = Ok (PyList x) /\ List.length x < 6 /\
               e = TypeError).

(** A body record on which one turn of the loop cannot go through: the
    position is not there, cannot be sliced, or is a list of other than six
    entries. *)
Definition body_defect (body : pyval) (e : exn) : Prop :=
  getitem body "position_" = Raise e \/
  (exists v, getitem body "position_" = Ok v /\ sliced_length v = None /\
             e = TypeError) \/
  (exists x, getitem body "position_" = Ok (PyList x) /\ List.length x <> 6 /\
             e = TypeError).

(** A cell whose ids are moved up by [k]: what becomes of a cell when [k]
    points are put in front of the points it refers to. *)
Definition shift_cell (k : nat) (c : cell) : cell :=
  {| npts := npts c; ids := map (Nat.add k) (ids c) |}.

(** Two records whose list under [key] is the same from entry 3 on. *)
Definition same_past_header (key : string) (r r' : pyval) : Prop :=
  exists x x', getitem r key = Ok (PyList x) /\
               getitem r' key = Ok (PyList x') /\
               skipn 3 x = skipn 3 x'.

Definition is_slice (ev : event) : bool :=
  match ev with
  | EvSlice _ _ _ => true
  | EvLoadFrame _ => false
  end.

(** A stretch of a fiber run: only slices were logged, one per point
    counted, and the points stay as many as were counted. *)
Definition fiber_stretch (v : FiberReader.vars) (log : list event)
    (v' : FiberReader.vars) : Prop :=
  forallb is_slice log = true /\
  FiberReader.offset v' = FiberReader.offset v + List.length log /\
  (List.length (FiberReader.pts v) = FiberReader.offset v ->
   List.length (FiberReader.pts v') = FiberReader.offset v').

Definition body_stretch (v : BodyReader.vars) (log : list event)
    (v' : BodyReader.vars) : Prop :=
  forallb is_slice log = true /\
  BodyReader.offset v' = BodyReader.offset v + List.length log /\
  (List.length (BodyReader.mb v) = BodyReader.offset v ->
   List.length (BodyReader.mb v') = BodyReader.offset v').

(** The four proxies one run of the setup script adds to a session that
    holds [n] proxies, and the display properties it sets. *)
Definition pipeline (script_dir : string) (read : string -> string) (n : nat)
  : list InitParaview.proxy :=
  let path := InitParaview.sourcepath script_dir in
  let file name := read (InitParaview.path_join path name) in
  [InitParaview.ProgrammableSource ("'" ++ path ++ "'")
     (file "fiber_reader.py") (file "fiber_reader_request.py")
     "vtkPolyData" "Fibers";
   InitParaview.Tube n
     [("Radius", InitParaview.LDecimal 25 (-3));
      ("Capping", InitParaview.LInt 1);
      ("NumberofSides", InitParaview.LInt 10)];
   InitParaview.ProgrammableSource ("'" ++ path ++ "'")
     (file "body_reader.py") (file "body_reader_request.py")
     "vtkMultiblockDataSet" "Bodies";
   InitParaview.Smooth (n + 2) []].

Definition colours (n : nat) : list (nat * (string * list InitParaview.literal)) :=
  [(n + 1, ("DiffuseColor",
            [InitParaview.LQuotient 0 255; InitParaview.LQuotient 255 255;
             InitParaview.LQuotient 127 255]));
   (n + 3, ("DiffuseColor",
            [InitParaview.LQuotient 143 255; InitParaview.LQuotient 255 255;
             InitParaview.LQuotient 246 255]))].

End More.
Import More.

Module Sample2.

(** A fiber record without a node count, and a frame in which it comes
    second. *)
Definition fiber_no_count : pyval :=
  PyDict [("x_", Sample.eigen 3 1 [Sample.f 1 0; Sample.f 2 0; Sample.f 3 0])].

Definition frame_bad_fiber (rest : list pyval) : pyval :=
  Sample.frame (Sample.fiber 1 [Sample.f 7 0; Sample.f 8 0; Sample.f 9 0]
                :: fiber_no_count :: rest) [].

(** A body record without a position, and a frame in which it comes
    second. *)
Definition body_no_position : pyval := PyDict [("orientation_", PyNone)].

Definition frame_bad_body (rest : list pyval) : pyval :=
  Sample.frame [] (Sample.body [Sample.f 1 0; Sample.f 1 0; Sample.f 1 0]
                   :: body_no_position :: rest).

(** A frame whose fibers are held in a dictionary instead of a list, and
    whose bodies are a string. *)
Definition frame_keyed : pyval :=
  PyDict [("fibers", PyDict [("first", Sample.fiber 0 [])]);
          ("bodies", PyStr "none")].

(** A fiber that announces a negative number of nodes and has no buffer. *)
Definition fiber_negative : pyval := PyDict [("n_nodes_", PyInt (-2))].

Definition frame_first : pyval :=
  Sample.frame [Sample.fiber 2 [Sample.f 1 0; Sample.f 2 0; Sample.f 3 0;
                                Sample.f 4 0; Sample.f 5 0; Sample.f 6 0]]
               [Sample.body [Sample.f 1 0; Sample.f 1 0; Sample.f 1 0]].

Definition frame_second : pyval :=
  Sample.frame [Sample.fiber 1 [Sample.f 7 0; Sample.f 8 0; Sample.f 9 0]]
               [Sample.body [Sample.f 2 0; Sample.f 2 0; PyInt 5]].

(** The second fiber and body of [Sample.frame0] with other things where the
    header is. *)
Definition fiber_other_header : pyval :=
  PyDict [("n_nodes_", PyInt 1);
          ("x_", PyList [PyNone; PyStr "rows"; PyInt 77;
                         Sample.f 7 0; Sample.f 8 0; Sample.f 9 0])].

Definition body_other_header : pyval :=
  PyDict [("position_", PyList [PyNone; PyStr "rows"; PyInt 77;
                                Sample.f 2 0; Sample.f 2 0; PyInt 5])].

Definition frame_other_header : pyval :=
  Sample.frame [fiber_other_header] [body_other_header].

(** The second fiber and body of [Sample.frame0] with further fields, in
    another order. *)
Definition fiber_more_fields : pyval :=
  PyDict [("length_", Sample.f 3 0);
          ("x_", Sample.eigen 3 1 [Sample.f 7 0; Sample.f 8 0; Sample.f 9 0]);
          ("bending_rigidity_", PyNone);
          ("n_nodes_", PyInt 1)].

Definition body_more_fields : pyval :=
  PyDict [("orientation_", PyList []);
          ("position_", Sample.eigen 3 1 [Sample.f 2 0; Sample.f 2 0; PyInt 5])].

Definition frame_more_fields : pyval :=
  Sample.frame [fiber_more_fields] [body_more_fields].

End Sample2.

(** ** Laws of the run monad *)

Section MonadLaws.
Context {A B : Type}.

Lemma bind_lift_ok (r : result A) (k : A -> M B) a :
  r = Ok a -> bind (lift r) k = k a.
Proof. intros ->. unfold bind, lift. now destruct (k a). Qed.

Lemma log_bind (c : M A) (k : A -> M B) :
  log_of (bind c k) =
  log_of c ++ match outcome c with Ok a => log_of (k a) | Raise _ => [] end.
Proof.
  destruct c as [l [a|e]]; cbn.
  - now destruct (k a).
  - now rewrite app_nil_r.
Qed.

Lemma outcome_bind (c : M A) (k : A -> M B) :
  outcome (bind c k) =
  match outcome c with Ok a => outcome (k a) | Raise e => Raise e end.
Proof. destruct c as [l [a|e]]; cbn; [now destruct (k a)|reflexivity]. Qed.

End MonadLaws.

Lemma surjective_run {A} (c : M A) : c = (log_of c, outcome c).
Proof. now destruct c. Qed.

Lemma load_calls_app l1 l2 : load_calls (l1 ++ l2) = load_calls l1 ++ load_calls l2.
Proof.
  induction l1 as [|[k|len lo hi] l1 IH]; cbn; [reflexivity| |assumption].
  now rewrite IH.
Qed.

(** *** Steps that never call the loader *)

Lemma quiet_lift {A} (r : result A) : quiet (lift r).
Proof. reflexivity. Qed.

Lemma quiet_ret {A} (a : A) : quiet (ret a).
Proof. reflexivity. Qed.

Lemma quiet_bind {A B} (c : M A) (k : A -> M B) :
  quiet c -> (forall a, quiet (k a)) -> quiet (bind c k).
Proof.
  unfold quiet. intros Hc Hk. rewrite log_bind, load_calls_app, Hc.
  destruct (outcome c); [apply Hk|reflexivity].
Qed.

Lemma quiet_getslice v lo hi : quiet (getslice v lo hi).
Proof. now destruct v. Qed.

Lemma quiet_for_each {A S} (body : S -> A -> M S) xs :
  (forall s x, quiet (body s x)) -> forall s, quiet (for_each body xs s).
Proof.
  intros Hb. induction xs as [|x xs IH]; intros s; cbn.
  - apply quiet_ret.
  - apply quiet_bind; [apply Hb|assumption].
Qed.

Create HintDb quiet.
#[local] Hint Resolve quiet_lift quiet_ret quiet_getslice : quiet.
#[local] Hint Extern 2 (quiet (bind _ _)) => apply quiet_bind; [|intro] : quiet.
#[local] Hint Extern 2 (quiet (for_each _ _ _)) => apply quiet_for_each; intros : quiet.

Lemma quiet_fiber_build frame : quiet (FiberReader.build frame).
Proof.
  unfold FiberReader.build, FiberReader.fiber_step, FiberReader.point_step.
  auto 12 with quiet.
Qed.

Lemma quiet_body_build frame : quiet (BodyReader.build frame).
Proof.
  unfold BodyReader.build, BodyReader.body_step, BodyReader.sphere_of.
  auto 12 with quiet.
Qed.

(** ** The time index handed to the loader *)

Lemma fiber_frame_of_calls FHS FPOS lf (self : source FHS FPOS) :
  load_calls (log_of (FiberReader.frame_of lf self)) =
  match int (FiberReader.time (GetOutputInformation self 0)) with
  | Ok k => [k]
  | Raise _ => []
  end.
Proof.
  unfold FiberReader.frame_of.
  destruct (int _) as [k|e]; [|reflexivity].
  cbn. now destruct (lf (fhs self) (fpos self) k).
Qed.

Lemma body_frame_of_calls FHS FPOS lf (self : source FHS FPOS) :
  load_calls (log_of (BodyReader.frame_of lf self)) =
  match int (BodyReader.time (GetOutputInformation self 0)) with
  | Ok k => [k]
  | Raise _ => []
  end.
Proof.
  unfold BodyReader.frame_of.
  destruct (int _) as [k|e]; [|reflexivity].
  cbn. now destruct (lf (fhs self) (fpos self) k).
Qed.

Lemma fiber_reader_calls FHS FPOS lf (self : source FHS FPOS) :
  load_calls (log_of (FiberReader.fiber_reader lf self)) =
  load_calls (log_of (FiberReader.frame_of lf self)).
Proof.
  unfold FiberReader.fiber_reader.
  rewrite log_bind, load_calls_app.
  destruct (outcome _) as [frame|e]; [|now rewrite app_nil_r].
  assert (Hq : quiet (FiberReader.output frame)).
  { apply quiet_bind; [apply quiet_fiber_build|intro; apply quiet_ret]. }
  unfold quiet in Hq. rewrite Hq. apply app_nil_r.
Qed.

Lemma body_reader_calls FHS FPOS lf (self : source FHS FPOS) :
  load_calls (log_of (BodyReader.body_reader lf self)) =
  load_calls (log_of (BodyReader.frame_of lf self)).
Proof.
  unfold BodyReader.body_reader.
  rewrite log_bind, load_calls_app.
  destruct (outcome _) as [frame|e]; [|now rewrite app_nil_r].
  assert (Hq : quiet (BodyReader.output frame)).
  { apply quiet_bind; [apply quiet_body_build|intro; apply quiet_ret]. }
  unfold quiet in Hq. rewrite Hq. apply app_nil_r.
Qed.

(** C1.  In a run of either reader the loader is called exactly once and
    with [int(t)] when the output information carries the requested time
    step [t] (and [int(t)] exists), and exactly once with [0] when it
    carries none. *)
Theorem time_index_passed_to_load_frame
    (FHS FPOS : Type) (load_frame : FHS -> FPOS -> Z -> result pyval)
    (self : source FHS FPOS) :
  let outInfo := GetOutputInformation self 0 in
  let fiber_calls := load_calls (log_of (FiberReader.fiber_reader load_frame self)) in
  let body_calls := load_calls (log_of (BodyReader.body_reader load_frame self)) in
  (forall t k,
      UPDATE_TIME_STEP outInfo = Some t -> int (NFloat t) = Ok k ->
      fiber_calls = [k] /\ body_calls = [k]) /\
  (UPDATE_TIME_STEP outInfo = None ->
      fiber_calls = [0%Z] /\ body_calls = [0%Z]).
Proof.
  cbv zeta.
  rewrite fiber_reader_calls, body_reader_calls,
    fiber_frame_of_calls, body_frame_of_calls.
  unfold FiberReader.time, BodyReader.time,
    Has_UPDATE_TIME_STEP, Get_UPDATE_TIME_STEP.
  split.
  - intros t k Ht Hk. rewrite Ht, Hk. now split.
  - intros Ht. rewrite Ht. now split.
Qed.

Lemma time_index_passed_to_load_frame_witness :
  (load_calls (log_of (FiberReader.fiber_reader
                         (Sample.loader [PyNone; PyNone; Sample.frame0])
                         (Sample.self (Some Sample.t2_5)))) = [2%Z] /\
   load_calls (log_of (BodyReader.body_reader
                         (Sample.loader [PyNone; PyNone; Sample.frame0])
                         (Sample.self (Some Sample.t2_5)))) = [2%Z]) /\
  (load_calls (log_of (FiberReader.fiber_reader
                         (Sample.loader [Sample.frame0]) (Sample.self None))) = [0%Z] /\
   load_calls (log_of (BodyReader.body_reader
                         (Sample.loader [Sample.frame0]) (Sample.self None))) = [0%Z]).
Proof.
  split.
  - apply (proj1 (time_index_passed_to_load_frame unit unit
                    (Sample.loader [PyNone; PyNone; Sample.frame0])
                    (Sample.self (Some Sample.t2_5))) Sample.t2_5 2%Z);
      reflexivity.
  - apply (proj2 (time_index_passed_to_load_frame unit unit
                    (Sample.loader [Sample.frame0]) (Sample.self None)));
      reflexivity.
Defined.

(** ** The setup script *)

Lemma update_at_length {A} (f : A -> A) (l : list A) x r :
  InitParaview.update (List.length l) f (l ++ x :: r) = l ++ f x :: r.
Proof. induction l as [|y l IH]; cbn; [reflexivity|now rewrite IH]. Qed.

(** C8.  Run in any session, the setup script adds exactly four proxies, in
    this order: the programmable source "Fibers" with output type
    vtkPolyData, a Tube filter fed by it, the programmable source "Bodies"
    with output type vtkMultiblockDataSet, a Smooth filter fed by it; it
    shows the two filters and sets one display property (the diffuse colour)
    on each of them. *)
Theorem init_paraview_pipeline (script_dir : string) (read : string -> string)
    (s0 : InitParaview.session) :
  let s := InitParaview.init_paraview script_dir read s0 in
  let n := List.length (InitParaview.proxies s0) in
  let path := InitParaview.sourcepath script_dir in
  let file name := read (InitParaview.path_join path name) in
  let added :=
    [InitParaview.ProgrammableSource ("'" ++ path ++ "'")
       (file "fiber_reader.py") (file "fiber_reader_request.py")
       "vtkPolyData" "Fibers";
     InitParaview.Tube n
       [("Radius", InitParaview.LDecimal 25 (-3));
        ("Capping", InitParaview.LInt 1);
        ("NumberofSides", InitParaview.LInt 10)];
     InitParaview.ProgrammableSource ("'" ++ path ++ "'")
       (file "body_reader.py") (file "body_reader_request.py")
       "vtkMultiblockDataSet" "Bodies";
     InitParaview.Smooth (n + 2) []] in
  InitParaview.proxies s = InitParaview.proxies s0 ++ added /\
  List.length (filter InitParaview.is_source added) = 2 /\
  List.length (filter InitParaview.is_filter added) = 2 /\
  InitParaview.shown s = InitParaview.shown s0 ++ [n + 1; n + 3] /\
  InitParaview.display s =
    InitParaview.display s0 ++
    [(n + 1, ("DiffuseColor",
              [InitParaview.LQuotient 0 255; InitParaview.LQuotient 255 255;
               InitParaview.LQuotient 127 255]));
     (n + 3, ("DiffuseColor",
              [InitParaview.LQuotient 143 255; InitParaview.LQuotient 255 255;
               InitParaview.LQuotient 246 255]))].
Proof.
  destruct s0 as [ps act sh disp].
  lazy beta iota zeta delta
    [InitParaview.init_paraview InitParaview.create InitParaview.setattr
     InitParaview.Show InitParaview.SetDisplayProperties
     InitParaview.proxies InitParaview.active InitParaview.shown
     InitParaview.display].
  rewrite !update_at_length.
  lazy beta iota delta [InitParaview.set_property].
  rewrite !length_app. cbn [List.length].
  replace (List.length ps + 1 + 1) with (List.length ps + 2) by lia.
  replace (List.length ps + 2 + 1) with (List.length ps + 3) by lia.
  rewrite <- !app_assoc.
  repeat split; reflexivity.
Qed.

(** ** Toolkit containers *)

Lemma set_slot_at_length {A} (a : A) (l : list (option A)) :
  set_slot (List.length l) a l = l ++ [Some a].
Proof. induction l as [|x l IH]; cbn; [reflexivity|now rewrite IH]. Qed.

Lemma InsertCellPoint_snoc id ls c :
  InsertCellPoint id (ls ++ [c]) = ls ++ [{| npts := npts c; ids := ids c ++ [id] |}].
Proof.
  induction ls as [|d ls IH]; [reflexivity|].
  cbn [app InsertCellPoint]. rewrite IH.
  destruct (ls ++ [c]) eqn:E; [now destruct ls|reflexivity].
Qed.

(** ** The fiber loops *)

#[local] Arguments slice_list : simpl never.
#[local] Arguments slice_string : simpl never.
#[local] Arguments as_double3 : simpl never.
#[local] Arguments Z.add : simpl never.
#[local] Arguments Z.mul : simpl never.

Lemma point_step_outcome fib v i :
  outcome (FiberReader.point_step fib v i) =
  match node fib i with
  | Ok p =>
      Ok {| FiberReader.pts := set_slot (FiberReader.offset v) p (FiberReader.pts v);
            FiberReader.lines := InsertCellPoint (FiberReader.offset v) (FiberReader.lines v);
            FiberReader.offset := FiberReader.offset v + 1;
            FiberReader.pl := FiberReader.pl v |}
  | Raise e => Raise e
  end.
Proof.
  unfold FiberReader.point_step, node, InsertPoint.
  destruct (getitem fib "x_") as [x|e]; [|reflexivity].
  destruct x as [| | |s|l|]; try reflexivity.
  cbn. destruct (as_double3 _); reflexivity.
Qed.

Lemma point_loop fib : forall indices v ls c,
  FiberReader.lines v = ls ++ [c] ->
  List.length (FiberReader.pts v) = FiberReader.offset v ->
  (exists ps,
      Forall2 (fun i p => node fib i = Ok p) indices ps /\
      outcome (for_each (FiberReader.point_step fib) indices v) =
      Ok {| FiberReader.pts := FiberReader.pts v ++ map Some ps;
            FiberReader.lines :=
              ls ++ [{| npts := npts c;
                        ids := ids c ++ seq (FiberReader.offset v) (List.length ps) |}];
            FiberReader.offset := FiberReader.offset v + List.length ps;
            FiberReader.pl := FiberReader.pl v |}) \/
  (exists e,
      outcome (for_each (FiberReader.point_step fib) indices v) = Raise e /\
      ~ Forall (fun i => exists p, node fib i = Ok p) indices).
Proof.
  induction indices as [|i indices IH]; intros v ls c Hl Hp.
  - left. exists []. split; [constructor|].
    destruct v as [p l o q], c as [n js]; cbn in *. subst l.
    now rewrite !app_nil_r, Nat.add_0_r.
  - cbn [for_each]. rewrite outcome_bind, point_step_outcome.
    destruct (node fib i) as [p|e] eqn:E.
    + set (v' := {| FiberReader.pts := _ |}).
      destruct (IH v' ls {| npts := npts c; ids := ids c ++ [FiberReader.offset v] |})
        as [(ps & Hps & Hout)|(e & Hout & Hno)].
      * subst v'. cbn. rewrite Hl. apply InsertCellPoint_snoc.
      * subst v'. cbn. rewrite <- Hp, set_slot_at_length, length_app. reflexivity.
      * left. exists (p :: ps). split; [now constructor|].
        rewrite Hout. subst v'. cbn.
        rewrite <- Hp, set_slot_at_length, <- !app_assoc. cbn.
        rewrite Nat.add_1_r. do 2 f_equal. lia.
      * right. exists e. split; [assumption|].
        intros H. apply Hno. now inversion H.
    + right. exists e. split; [reflexivity|].
      intros H. inversion H as [|? ? [p Hp'] ?]; subst. congruence.
Qed.

Lemma reads_fiber_unique fib n ps n' ps' :
  reads_fiber fib n ps -> reads_fiber fib n' ps' -> n = n' /\ ps = ps'.
Proof.
  intros [Hn Hps] [Hn' Hps']. rewrite Hn in Hn'. injection Hn' as <-.
  split; [reflexivity|].
  revert ps' Hps'. induction Hps as [|i p js ps Hi _ IH]; intros ps' Hps'.
  - now inversion Hps'.
  - inversion Hps' as [|? p' ? ps'' Hi' Hrest]; subst.
    rewrite Hi in Hi'. injection Hi' as <-. f_equal. now apply IH.
Qed.

Lemma Forall2_Forall_l {A B} (R : A -> B -> Prop) xs ys :
  Forall2 R xs ys -> Forall (fun x => exists y, R x y) xs.
Proof. induction 1; constructor; eauto. Qed.

Lemma fiber_step_outcome v fib :
  List.length (FiberReader.pts v) = FiberReader.offset v ->
  (exists n ps,
      reads_fiber fib n ps /\
      outcome (FiberReader.fiber_step v fib) =
      Ok {| FiberReader.pts := FiberReader.pts v ++ map Some ps;
            FiberReader.lines :=
              FiberReader.lines v ++
              [{| npts := n; ids := seq (FiberReader.offset v) (List.length ps) |}];
            FiberReader.offset := FiberReader.offset v + List.length ps;
            FiberReader.pl := Some {| num_ids := n |} |}) \/
  (exists e,
      outcome (FiberReader.fiber_step v fib) = Raise e /\ ~ readable_fiber fib).
Proof.
  intros Hp. unfold FiberReader.fiber_step.
  destruct (getitem fib "n_nodes_") as [nn|e] eqn:En.
  - destruct nn as [|n| | | |];
      try (right; exists TypeError; split;
           [reflexivity|intros (n' & ps' & Hn' & _); congruence]).
    rewrite (bind_lift_ok _ _ _ eq_refl).
    unfold InsertNextCell, SetNumberOfIds. cbn [as_id].
    rewrite (bind_lift_ok _ _ _ eq_refl), (bind_lift_ok _ _ _ eq_refl).
    unfold range. rewrite (bind_lift_ok _ _ _ eq_refl).
    set (v' := {| FiberReader.pts := _ |}).
    destruct (point_loop fib (map Z.of_nat (seq 0 (Z.to_nat n))) v'
                (FiberReader.lines v) {| npts := n; ids := [] |})
      as [(ps & Hps & Hout)|(e & Hout & Hno)]; [reflexivity|exact Hp| |].
    + left. exists n, ps. split; [now split|]. rewrite Hout. reflexivity.
    + right. exists e. split; [assumption|].
      intros (n' & ps' & Hn' & Hps'). apply Hno.
      rewrite En in Hn'. injection Hn' as <-.
      apply (Forall2_Forall_l _ _ _ Hps').
  - right. exists e. split; [reflexivity|].
    intros (n' & ps' & Hn' & _). congruence.
Qed.

Lemma points_of_cons n ps recs :
  points_of ((n, ps) :: recs) = map Some ps ++ points_of recs.
Proof. unfold points_of. cbn. now rewrite map_app. Qed.

Lemma fiber_loop : forall items v,
  List.length (FiberReader.pts v) = FiberReader.offset v ->
  (exists recs v',
      Forall2 (fun fib r => reads_fiber fib (fst r) (snd r)) items recs /\
      outcome (for_each FiberReader.fiber_step items v) = Ok v' /\
      FiberReader.pts v' = FiberReader.pts v ++ points_of recs /\
      FiberReader.lines v' =
        FiberReader.lines v ++ cells_from (FiberReader.offset v) recs) \/
  (exists e,
      outcome (for_each FiberReader.fiber_step items v) = Raise e /\
      ~ Forall readable_fiber items).
Proof.
  induction items as [|fib items IH]; intros v Hp.
  - left. exists [], v. repeat split; try constructor; cbn; now rewrite app_nil_r.
  - cbn [for_each]. rewrite outcome_bind.
    destruct (fiber_step_outcome v fib Hp)
      as [(n & ps & Hr & Hout)|(e & Hout & Hno)]; rewrite Hout.
    + set (v1 := {| FiberReader.pts := _ |}).
      destruct (IH v1) as [(recs & v' & Hrecs & Hv' & Hpts & Hlines)|(e & Hv' & Hno)].
      * subst v1. cbn. rewrite length_app, length_map. now rewrite Hp.
      * left. exists ((n, ps) :: recs), v'. split; [now constructor|].
        split; [assumption|]. subst v1. cbn in Hpts, Hlines.
        rewrite Hpts, Hlines, points_of_cons, <- !app_assoc. now split.
      * right. exists e. split; [assumption|].
        intros H. apply Hno. now inversion H.
    + right. exists e. split; [reflexivity|].
      intros H. apply Hno. now inversion H.
Qed.

(** Every run of lines 13-30 on a frame goes one of two ways. *)
Lemma fiber_output_cases frame :
  (exists items recs,
      items_of "fibers" frame = Ok items /\
      fiber_records items recs /\
      outcome (FiberReader.output frame) =
      Ok {| Points := points_of recs; Lines := cells_from 0 recs |}) \/
  (exists e,
      outcome (FiberReader.output frame) = Raise e /\
      (items_of "fibers" frame = Raise e \/
       exists items, items_of "fibers" frame = Ok items /\
                     ~ Forall readable_fiber items)).
Proof.
  unfold FiberReader.output, FiberReader.build, items_of.
  destruct (getitem frame "fibers") as [fibers|e].
  2:{ right. exists e. split; [reflexivity|now left]. }
  rewrite (bind_lift_ok _ _ _ eq_refl).
  destruct (iter fibers) as [items|e].
  2:{ right. exists e. split; [reflexivity|now left]. }
  rewrite (bind_lift_ok _ _ _ eq_refl), outcome_bind.
  destruct (fiber_loop items FiberReader.init eq_refl)
    as [(recs & v' & Hrecs & Hv' & Hpts & Hlines)|(e & Hv' & Hno)]; rewrite Hv'.
  - left. exists items, recs. repeat split; [assumption|].
    cbn in *. now rewrite Hpts, Hlines.
  - right. exists e. split; [reflexivity|]. right. now exists items.
Qed.

(** ** Slices *)

Lemma slice_list_window {A} (l : list A) (a c : nat) :
  slice_list l (Z.of_nat a) (Some (Z.of_nat a + Z.of_nat c)%Z) = firstn c (skipn a l).
Proof.
  unfold slice_list, slice_bounds, clamp.
  destruct (Z.ltb_spec (Z.of_nat a) 0); [lia|].
  destruct (Z.ltb_spec (Z.of_nat a + Z.of_nat c) 0); [lia|].
  destruct (Nat.le_gt_cases a (List.length l)) as [Ha|Ha].
  - rewrite (Z.min_l (Z.of_nat a)) by lia. rewrite Nat2Z.id.
    destruct (Nat.le_gt_cases (a + c) (List.length l)) as [Hc|Hc].
    + rewrite Z.min_l by lia. f_equal. lia.
    + rewrite Z.min_r by lia.
      rewrite !firstn_all2; try reflexivity; rewrite length_skipn; lia.
  - rewrite !Z.min_r by lia. rewrite Nat2Z.id.
    rewrite !skipn_all2 by lia. now rewrite !firstn_nil.
Qed.

Lemma slice_list_from {A} (l : list A) (a : nat) :
  slice_list l (Z.of_nat a) None = skipn a l.
Proof.
  unfold slice_list, slice_bounds, clamp.
  destruct (Z.ltb_spec (Z.of_nat a) 0); [lia|].
  destruct (Nat.le_gt_cases a (List.length l)) as [Ha|Ha].
  - rewrite Z.min_l by lia. rewrite Nat2Z.id.
    apply firstn_all2. rewrite length_skipn. lia.
  - rewrite Z.min_r by lia. rewrite Nat2Z.id.
    rewrite !skipn_all2 by lia. apply firstn_nil.
Qed.

Lemma firstn3_skipn {A} (l : list A) s x y z :
  firstn 3 (skipn s l) = [x; y; z] <->
  nth_error l s = Some x /\ nth_error l (s + 1) = Some y /\
  nth_error l (s + 2) = Some z.
Proof.
  assert (H0 : nth_error l s = nth_error (skipn s l) 0)
    by (now rewrite nth_error_skipn, Nat.add_0_r).
  assert (H1 : nth_error l (s + 1) = nth_error (skipn s l) 1)
    by (now rewrite nth_error_skipn).
  assert (H2 : nth_error l (s + 2) = nth_error (skipn s l) 2)
    by (now rewrite nth_error_skipn).
  rewrite H0, H1, H2.
  destruct (skipn s l) as [|a [|b [|c r]]]; cbn; split;
    try (intros (? & ? & ?); discriminate); try discriminate.
  - intros H; injection H as -> -> ->. now repeat split.
  - intros (Ha & Hb & Hc). congruence.
Qed.

(** ** What a node and a centre are, in terms of the buffer *)

Lemma as_double3_triple x s p :
  as_double3 (PyList (firstn 3 (skipn s x))) = Ok p <-> triple_at x s = Some p.
Proof.
  unfold triple_at, as_double3.
  destruct (firstn 3 (skipn s x)) as [|a [|b [|c [|d r]]]] eqn:E.
  4:{ apply firstn3_skipn in E. destruct E as (-> & -> & ->).
      cbv beta iota.
      destruct (as_number a), (as_number b), (as_number c);
        split; intros H;
        first [discriminate H | inversion H; reflexivity]. }
  4:{ apply (f_equal (@List.length _)) in E. rewrite length_firstn in E.
      cbn [List.length] in E. lia. }
  all: assert (Hn : nth_error x (s + 2) = None)
    by (apply nth_error_None; apply (f_equal (@List.length _)) in E;
        rewrite length_firstn, length_skipn in E; cbn [List.length] in E; lia).
  all: rewrite Hn; cbv beta iota;
    destruct (nth_error x s), (nth_error x (s + 1)); split; intros H;
    discriminate H.
Qed.

Lemma node_of_list fib x j :
  getitem fib "x_" = Ok (PyList x) ->
  node fib (Z.of_nat j) = as_double3 (PyList (firstn 3 (skipn (3 + 3 * j) x))).
Proof.
  intros Hx. unfold node. rewrite Hx. cbn.
  replace (3 + Z.of_nat j * 3 + 3)%Z
    with (Z.of_nat (3 + 3 * j) + Z.of_nat 3)%Z by lia.
  replace (3 + Z.of_nat j * 3)%Z with (Z.of_nat (3 + 3 * j)) by lia.
  now rewrite slice_list_window.
Qed.

Lemma node_ok_iff fib j p :
  node fib (Z.of_nat j) = Ok p <->
  exists x, getitem fib "x_" = Ok (PyList x) /\ triple_at x (3 + 3 * j) = Some p.
Proof.
  split.
  - intros H. destruct (getitem fib "x_") as [x|e] eqn:Hx.
    + destruct x as [| | |s|x|];
        try (unfold node in H; rewrite Hx in H; discriminate).
      exists x. split; [reflexivity|].
      rewrite (node_of_list _ _ _ Hx) in H. now apply as_double3_triple.
    + unfold node in H. rewrite Hx in H. discriminate.
  - intros (x & Hx & Ht). rewrite (node_of_list _ _ _ Hx).
    now apply as_double3_triple.
Qed.

Lemma Forall2_seq_intro {B} (R : Z -> B -> Prop) :
  forall n s,
  (forall i, i < n -> exists b, R (Z.of_nat (s + i)) b) ->
  exists bs, Forall2 R (map Z.of_nat (seq s n)) bs /\ List.length bs = n.
Proof.
  induction n as [|n IH]; intros s H.
  - exists []. split; [constructor|reflexivity].
  - destruct (H 0) as [b Hb]; [lia|]. rewrite Nat.add_0_r in Hb.
    destruct (IH (S s)) as (bs & Hbs & Hlen).
    { intros i Hi. destruct (H (S i)) as [b' Hb']; [lia|].
      exists b'. now replace (S s + i) with (s + S i) by lia. }
    exists (b :: bs). split; [now constructor|cbn; now rewrite Hlen].
Qed.

Lemma Forall2_seq_elim {B} (R : Z -> B -> Prop) :
  forall n s bs,
  Forall2 R (map Z.of_nat (seq s n)) bs ->
  List.length bs = n /\
  forall i, i < n -> exists b, nth_error bs i = Some b /\ R (Z.of_nat (s + i)) b.
Proof.
  induction n as [|n IH]; intros s bs H.
  - inversion H. split; [reflexivity|]. intros i Hi. lia.
  - cbn in H. inversion H as [|? b ? bs' Hb Hrest]; subst.
    destruct (IH _ _ Hrest) as [Hlen Hnth]. split; [cbn; now rewrite Hlen|].
    intros [|i] Hi.
    + exists b. split; [reflexivity|now rewrite Nat.add_0_r].
    + destruct (Hnth i) as (b' & Hb' & HR); [lia|].
      exists b'. split; [assumption|].
      now replace (s + S i) with (S s + i) by lia.
Qed.

Lemma readable_acceptable fib : readable_fiber fib <-> acceptable_fiber fib.
Proof.
  split.
  - intros (n & ps & Hn & Hps). exists n. split; [assumption|].
    intros i Hi. destruct (Forall2_seq_elim _ _ _ _ Hps) as [_ Hnth].
    destruct (Hnth i Hi) as (p & _ & Hp). cbn in Hp.
    apply node_ok_iff in Hp. destruct Hp as (x & Hx & Ht). now exists x, p.
  - intros (n & Hn & Hall).
    destruct (Forall2_seq_intro (fun i p => node fib i = Ok p) (Z.to_nat n) 0)
      as (ps & Hps & _).
    { intros i Hi. destruct (Hall i Hi) as (x & p & Hx & Ht).
      exists p. apply node_ok_iff. now exists x. }
    now exists n, ps.
Qed.

(** ** Cells and points of a successful run *)

Lemma length_points_of_cons n ps recs :
  List.length (points_of ((n, ps) :: recs)) =
  List.length ps + List.length (points_of recs).
Proof. now rewrite points_of_cons, length_app, length_map. Qed.

Lemma concat_ids_cells_from : forall recs s,
  List.concat (map ids (cells_from s recs)) = seq s (List.length (points_of recs)).
Proof.
  induction recs as [|[n ps] recs IH]; intros s; [reflexivity|].
  cbn [cells_from map List.concat ids].
  now rewrite IH, length_points_of_cons, seq_app.
Qed.

Lemma cells_from_run : forall recs s k c,
  nth_error (cells_from s recs) k = Some c ->
  ids c =
  seq (s + List.length (List.concat (map ids (firstn k (cells_from s recs)))))
      (List.length (ids c)).
Proof.
  induction recs as [|[n ps] recs IH]; intros s k c H.
  - now destruct k.
  - destruct k as [|k]; cbn in H.
    + injection H as <-. cbn. now rewrite Nat.add_0_r, length_seq.
    + cbn [cells_from firstn map List.concat ids].
      rewrite (IH _ _ _ H) at 1. rewrite length_app, length_seq.
      f_equal. lia.
Qed.

Lemma points_of_set recs id :
  id < List.length (points_of recs) ->
  exists p, nth_error (points_of recs) id = Some (Some p).
Proof.
  unfold points_of. rewrite length_map. intros H.
  destruct (nth_error (List.concat (map snd recs)) id) as [p|] eqn:E.
  - exists p. now rewrite nth_error_map, E.
  - apply nth_error_None in E. lia.
Qed.

Lemma fiber_reader_outcome FHS FPOS lf (self : source FHS FPOS) :
  outcome (FiberReader.fiber_reader lf self) =
  match outcome (FiberReader.frame_of lf self) with
  | Ok frame => outcome (FiberReader.output frame)
  | Raise e => Raise e
  end.
Proof. unfold FiberReader.fiber_reader. apply outcome_bind. Qed.

Lemma fiber_reader_ok FHS FPOS lf (self : source FHS FPOS) out :
  outcome (FiberReader.fiber_reader lf self) = Ok out ->
  exists frame items recs,
    outcome (FiberReader.frame_of lf self) = Ok frame /\
    items_of "fibers" frame = Ok items /\
    fiber_records items recs /\
    out = {| Points := points_of recs; Lines := cells_from 0 recs |}.
Proof.
  rewrite fiber_reader_outcome.
  destruct (outcome (FiberReader.frame_of lf self)) as [frame|e]; [|discriminate].
  intros H. exists frame.
  destruct (fiber_output_cases frame)
    as [(items & recs & Hi & Hr & Hout)|(e & Hout & _)]; [|congruence].
  exists items, recs. repeat split; try assumption. congruence.
Qed.

(** C9.  Whenever the fiber reader produces its output, the ids written
    into the line cells, read cell after cell, are exactly 0, 1, ..., N-1
    for N the number of points; every cell holds a consecutive run that
    starts where the cells before it stop; and every id, indeed every index
    below N, names a point that has been set. *)
Theorem fiber_reader_ids_invariant
    (FHS FPOS : Type) (load_frame : FHS -> FPOS -> Z -> result pyval)
    (self : source FHS FPOS) (out : vtkPolyData) :
  outcome (FiberReader.fiber_reader load_frame self) = Ok out ->
  let N := List.length (Points out) in
  List.concat (map ids (Lines out)) = seq 0 N /\
  (forall k c, nth_error (Lines out) k = Some c ->
     ids c = seq (List.length (List.concat (map ids (firstn k (Lines out)))))
                 (List.length (ids c))) /\
  (forall id, In id (List.concat (map ids (Lines out))) ->
     exists p, nth_error (Points out) id = Some (Some p)) /\
  (forall id, id < N -> exists p, nth_error (Points out) id = Some (Some p)).
Proof.
  intros H. apply fiber_reader_ok in H.
  destruct H as (frame & items & recs & _ & _ & _ & ->). cbn [Points Lines].
  rewrite concat_ids_cells_from. repeat split.
  - intros k c Hc. now rewrite (cells_from_run _ _ _ _ Hc) at 1.
  - intros id Hin. apply in_seq in Hin. apply points_of_set. lia.
  - intros id Hid. now apply points_of_set.
Qed.

Lemma fiber_reader_ids_invariant_witness :
  exists out,
    outcome (FiberReader.fiber_reader (Sample.loader [Sample.frame0])
                                      (Sample.self None)) = Ok out /\
    List.concat (map ids (Lines out)) = seq 0 (List.length (Points out)).
Proof.
  eexists. split; [vm_compute; reflexivity|].
  refine (proj1 (fiber_reader_ids_invariant unit unit
                   (Sample.loader [Sample.frame0]) (Sample.self None) _ _)).
  vm_compute. reflexivity.
Defined.

(** ** Well-formed records are read in full *)

Lemma well_formed_entry x n j :
  3 + 3 * n <= List.length x ->
  Forall numeric (firstn (3 * n) (skipn 3 x)) ->
  j < 3 * n ->
  exists a u, nth_error x (3 + j) = Some a /\ as_number a = Some u.
Proof.
  intros Hlen Hnum Hj.
  destruct (nth_error x (3 + j)) as [a|] eqn:E.
  2:{ apply nth_error_None in E. lia. }
  assert (Hin : In a (firstn (3 * n) (skipn 3 x))).
  { apply (nth_error_In _ j). rewrite nth_error_firstn.
    destruct (Nat.ltb_spec j (3 * n)); [|lia]. rewrite nth_error_skipn. exact E. }
  rewrite Forall_forall in Hnum. specialize (Hnum a Hin). unfold numeric in Hnum.
  destruct (as_number a) as [u|] eqn:Eu; [|now destruct Hnum]. now exists a, u.
Qed.

Lemma well_formed_triple x n i :
  3 + 3 * n <= List.length x ->
  Forall numeric (firstn (3 * n) (skipn 3 x)) ->
  i < n ->
  exists p, triple_at x (3 + 3 * i) = Some p.
Proof.
  intros Hlen Hnum Hi. unfold triple_at.
  destruct (well_formed_entry x n (3 * i) Hlen Hnum) as (a & u & Ha & Hu); [lia|].
  destruct (well_formed_entry x n (3 * i + 1) Hlen Hnum) as (b & v & Hb & Hv); [lia|].
  destruct (well_formed_entry x n (3 * i + 2) Hlen Hnum) as (c & w & Hc & Hw); [lia|].
  replace (3 + (3 * i + 1)) with (3 + 3 * i + 1) in Hb by lia.
  replace (3 + (3 * i + 2)) with (3 + 3 * i + 2) in Hc by lia.
  rewrite Ha, Hb, Hc, Hu, Hv, Hw. now eexists.
Qed.

Lemma well_formed_reads fib n :
  well_formed_fiber fib n ->
  exists ps, reads_fiber fib (Z.of_nat n) ps /\ List.length ps = n.
Proof.
  intros (Hn & x & Hx & Hlen & Hnum).
  destruct (Forall2_seq_intro (fun i p => node fib i = Ok p) n 0) as (ps & Hps & Hl).
  { intros i Hi. destruct (well_formed_triple x n i Hlen Hnum Hi) as [p Hp].
    exists p. apply node_ok_iff. now exists x. }
  exists ps. split; [|assumption]. split; [assumption|]. now rewrite Nat2Z.id.
Qed.

Lemma well_formed_records items ns recs :
  Forall2 well_formed_fiber items ns ->
  fiber_records items recs ->
  Forall2 (fun r n => fst r = Z.of_nat n /\ List.length (snd r) = n) recs ns.
Proof.
  intros Hwf. revert recs.
  induction Hwf as [|fib n items ns Hfib _ IH]; intros recs Hrecs;
    inversion Hrecs as [|? r ? recs' Hr Hrest]; subst; constructor.
  - destruct (well_formed_reads _ _ Hfib) as (ps & Hps & Hl).
    destruct (reads_fiber_unique _ _ _ _ _ Hr Hps) as [-> ->]. now split.
  - now apply IH.
Qed.

Lemma well_formed_readable items ns :
  Forall2 well_formed_fiber items ns -> Forall readable_fiber items.
Proof.
  induction 1 as [|fib n items ns Hfib _ IH]; constructor; [|assumption].
  destruct (well_formed_reads _ _ Hfib) as (ps & Hps & _). now exists (Z.of_nat n), ps.
Qed.

(** A frame of well-formed fibers goes through, and its output is laid out
    by the records read. *)
Lemma well_formed_output frame items ns :
  items_of "fibers" frame = Ok items ->
  Forall2 well_formed_fiber items ns ->
  exists recs,
    fiber_records items recs /\
    Forall2 (fun r n => fst r = Z.of_nat n /\ List.length (snd r) = n) recs ns /\
    outcome (FiberReader.output frame) =
    Ok {| Points := points_of recs; Lines := cells_from 0 recs |}.
Proof.
  intros Hitems Hwf.
  destruct (fiber_output_cases frame)
    as [(items' & recs & Hi & Hr & Hout)|(e & _ & [Hi|(items' & Hi & Hno)])].
  - rewrite Hitems in Hi. injection Hi as <-.
    exists recs. repeat split; try assumption.
    now apply (well_formed_records items).
  - congruence.
  - rewrite Hitems in Hi. injection Hi as <-.
    destruct Hno. now apply (well_formed_readable _ ns).
Qed.

Lemma cells_from_shape recs ns :
  Forall2 (fun r n => fst r = Z.of_nat n /\ List.length (snd r) = n) recs ns ->
  forall s,
  Forall2 (fun c n => npts c = Z.of_nat n /\ List.length (ids c) = n)
          (cells_from s recs) ns.
Proof.
  induction 1 as [|[z ps] n recs ns [Hz Hl] _ IH]; intros s; constructor.
  - cbn in *. now rewrite length_seq.
  - apply IH.
Qed.

Lemma points_of_count recs ns :
  Forall2 (fun r n => fst r = Z.of_nat n /\ List.length (snd r) = n) recs ns ->
  List.length (points_of recs) = list_sum ns.
Proof.
  induction 1 as [|[z ps] n recs ns [Hz Hl] _ IH]; [reflexivity|].
  rewrite length_points_of_cons, IH. cbn in *. now rewrite Hl.
Qed.

(** C3.  For a frame of well-formed fiber records the fiber reader produces
    its output; the output has one line cell per record, in record order;
    the cell of a record with node count [n] is announced with size [n] and
    lists [n] point ids; and the number of points equals the sum of the node
    counts. *)
Theorem fiber_reader_cells
    (FHS FPOS : Type) (load_frame : FHS -> FPOS -> Z -> result pyval)
    (self : source FHS FPOS) (frame : pyval) (items : list pyval) (ns : list nat) :
  outcome (FiberReader.frame_of load_frame self) = Ok frame ->
  items_of "fibers" frame = Ok items ->
  Forall2 well_formed_fiber items ns ->
  exists out,
    outcome (FiberReader.fiber_reader load_frame self) = Ok out /\
    List.length (Lines out) = List.length items /\
    Forall2 (fun c n => npts c = Z.of_nat n /\ List.length (ids c) = n)
            (Lines out) ns /\
    List.length (Points out) = list_sum ns.
Proof.
  intros Hframe Hitems Hwf.
  destruct (well_formed_output frame items ns Hitems Hwf)
    as (recs & Hrecs & Hshape & Hout).
  eexists. rewrite fiber_reader_outcome, Hframe. split; [exact Hout|].
  cbn [Points Lines]. pose proof (cells_from_shape _ _ Hshape 0) as Hcells.
  repeat split.
  - rewrite (Forall2_length Hcells). symmetry. apply (Forall2_length Hwf).
  - exact Hcells.
  - now apply points_of_count.
Qed.

Ltac well_formed_sample :=
  repeat first
    [ apply Forall2_nil
    | apply Forall2_cons
    | apply Forall_nil
    | apply Forall_cons
    | split
    | reflexivity
    | discriminate
    | eexists
    | (cbn; lia) ].

Lemma fiber_reader_cells_witness :
  exists out,
    outcome (FiberReader.fiber_reader (Sample.loader [Sample.frame0])
                                      (Sample.self None)) = Ok out /\
    List.length (Lines out) = List.length Sample.fibers0 /\
    Forall2 (fun c n => npts c = Z.of_nat n /\ List.length (ids c) = n)
            (Lines out) [2; 1] /\
    List.length (Points out) = list_sum [2; 1].
Proof.
  apply (fiber_reader_cells unit unit (Sample.loader [Sample.frame0])
           (Sample.self None) Sample.frame0 Sample.fibers0 [2; 1]).
  - reflexivity.
  - reflexivity.
  - unfold Sample.fibers0, well_formed_fiber. well_formed_sample.
Defined.

(** ** Which point a polyline entry is *)

Lemma Forall2_nth_error_l {A B} (R : A -> B -> Prop) xs ys :
  Forall2 R xs ys ->
  forall k x, nth_error xs k = Some x ->
  exists y, nth_error ys k = Some y /\ R x y.
Proof.
  induction 1 as [|x0 y0 xs ys H0 _ IH]; intros [|k] x Hk; try discriminate.
  - injection Hk as <-. now exists y0.
  - now apply IH.
Qed.

Lemma layout_lookup : forall recs s pre k r i p,
  List.length pre = s ->
  nth_error recs k = Some r ->
  nth_error (snd r) i = Some p ->
  exists c id,
    nth_error (cells_from s recs) k = Some c /\
    nth_error (ids c) i = Some id /\
    nth_error (pre ++ points_of recs) id = Some (Some p).
Proof.
  induction recs as [|[n ps] recs IH]; intros s pre k r i p Hs Hk Hi.
  - now destruct k.
  - destruct k as [|k].
    + injection Hk as <-. cbn in Hi.
      assert (Hlt : i < List.length ps) by (apply nth_error_Some; congruence).
      exists {| npts := n; ids := seq s (List.length ps) |}, (s + i).
      split; [reflexivity|]. split.
      * cbn. rewrite nth_error_seq.
        destruct (Nat.ltb_spec i (List.length ps)); [reflexivity|lia].
      * rewrite points_of_cons, nth_error_app2 by lia.
        replace (s + i - List.length pre) with i by lia.
        rewrite nth_error_app1 by (rewrite length_map; lia).
        now rewrite nth_error_map, Hi.
    + cbn in Hk.
      destruct (IH (s + List.length ps) (pre ++ map Some ps) k r i p)
        as (c & id & Hc & Hid & Hp); try assumption.
      { rewrite length_app, length_map. lia. }
      exists c, id. split; [exact Hc|]. split; [exact Hid|].
      now rewrite points_of_cons, app_assoc.
Qed.

(** C4, as the code has it.  For a frame of well-formed fiber records, point
    [i] of the polyline of every fiber, for [i] below the fiber's node
    count, is made of the three buffer entries [3 + 3i], [3 + 3i + 1] and
    [3 + 3i + 2]: the coordinates are read after the three-entry header, not
    from the start of the buffer. *)
Theorem fiber_reader_points
    (FHS FPOS : Type) (load_frame : FHS -> FPOS -> Z -> result pyval)
    (self : source FHS FPOS) (frame : pyval) (items : list pyval) (ns : list nat) :
  outcome (FiberReader.frame_of load_frame self) = Ok frame ->
  items_of "fibers" frame = Ok items ->
  Forall2 well_formed_fiber items ns ->
  exists out,
    outcome (FiberReader.fiber_reader load_frame self) = Ok out /\
    forall k fib n x i,
      nth_error items k = Some fib ->
      nth_error ns k = Some n ->
      getitem fib "x_" = Ok (PyList x) ->
      i < n ->
      exists p, polyline_point out k i = Some p /\
                triple_at x (3 + 3 * i) = Some p.
Proof.
  intros Hframe Hitems Hwf.
  destruct (well_formed_output frame items ns Hitems Hwf)
    as (recs & Hrecs & Hshape & Hout).
  eexists. rewrite fiber_reader_outcome, Hframe. split; [exact Hout|].
  intros k fib n x i Hfib Hn Hx Hi.
  destruct (Forall2_nth_error_l _ _ _ Hrecs k fib Hfib) as (r & Hr & _ & Hnodes).
  destruct (Forall2_nth_error_l _ _ _ Hshape k r Hr) as (n' & Hn' & Hz & _).
  rewrite Hn in Hn'. injection Hn' as <-.
  rewrite Hz, Nat2Z.id in Hnodes.
  destruct (Forall2_seq_elim _ _ _ _ Hnodes) as [_ Hnth].
  destruct (Hnth i Hi) as (p & Hp & Hnode). cbn in Hnode.
  apply node_ok_iff in Hnode. destruct Hnode as (x' & Hx' & Ht).
  rewrite Hx in Hx'. injection Hx' as <-.
  exists p. split; [|exact Ht].
  destruct (layout_lookup recs 0 [] k r i p eq_refl Hr Hp)
    as (c & id & Hc & Hid & Hpt).
  unfold polyline_point. cbn [Points Lines]. cbn [app] in Hpt.
  now rewrite Hc, Hid, Hpt.
Qed.

Lemma fiber_reader_points_witness :
  exists out,
    outcome (FiberReader.fiber_reader (Sample.loader [Sample.frame1])
                                      (Sample.self None)) = Ok out /\
    forall k fib n x i,
      nth_error [Sample.fiber1] k = Some fib ->
      nth_error [1] k = Some n ->
      getitem fib "x_" = Ok (PyList x) ->
      i < n ->
      exists p, polyline_point out k i = Some p /\
                triple_at x (3 + 3 * i) = Some p.
Proof.
  apply (fiber_reader_points unit unit (Sample.loader [Sample.frame1])
           (Sample.self None) Sample.frame1 [Sample.fiber1] [1]).
  - reflexivity.
  - reflexivity.
  - unfold Sample.fiber1, Sample.buffer1, well_formed_fiber. well_formed_sample.
Defined.

(** C4, as the claim words it, fails: the one point of the polyline of
    [Sample.fiber1] is the buffer's entries 3..5, while the buffer's entries
    0..2 are another point. *)
Lemma fiber_reader_points_not_from_start :
  well_formed_fiber Sample.fiber1 1 /\
  exists out,
    outcome (FiberReader.fiber_reader (Sample.loader [Sample.frame1])
                                      (Sample.self None)) = Ok out /\
    polyline_point out 0 0 = Some (NInt 1, NInt 2, NInt 3) /\
    triple_at Sample.buffer1 (3 * 0) = Some (NInt 10, NInt 20, NInt 30) /\
    polyline_point out 0 0 <> triple_at Sample.buffer1 (3 * 0).
Proof.
  split.
  - unfold Sample.fiber1, Sample.buffer1, well_formed_fiber. well_formed_sample.
  - eexists. split; [vm_compute; reflexivity|].
    repeat split; try reflexivity. discriminate.
Qed.

(** ** The slices a run takes *)

Lemma log_bind_lift {A B} (r : result A) (k : A -> M B) :
  log_of (bind (lift r) k) = match r with Ok a => log_of (k a) | Raise _ => [] end.
Proof. rewrite log_bind. now destruct r. Qed.

Lemma log_for_each {A S} (body : S -> A -> M S) ev :
  forall xs s, In ev (log_of (for_each body xs s)) ->
  exists s' x, In x xs /\ In ev (log_of (body s' x)).
Proof.
  induction xs as [|x xs IH]; intros s H; [destruct H|].
  cbn [for_each] in H. rewrite log_bind in H. apply in_app_or in H.
  destruct H as [H|H].
  - exists s, x. split; [now left|assumption].
  - destruct (outcome (body s x)) as [s1|e]; [|destruct H].
    destruct (IH s1 H) as (s' & y & Hy & Hev). exists s', y. split; [now right|assumption].
Qed.

Lemma point_step_log fib v i ev :
  In ev (log_of (FiberReader.point_step fib v i)) ->
  exists x len,
    getitem fib "x_" = Ok x /\ sliced_length x = Some len /\
    ev = EvSlice len (3 + i * 3) (Some (3 + i * 3 + 3)%Z).
Proof.
  unfold FiberReader.point_step. cbv zeta. rewrite log_bind_lift.
  destruct (getitem fib "x_") as [x|e]; [|cbn; intros []].
  rewrite log_bind. intros H. apply in_app_or in H. destruct H as [H|H].
  - destruct x as [| | |s|l|]; cbn in H; try contradiction;
      destruct H as [<-|[]]; eexists _, _; repeat split; reflexivity.
  - destruct (outcome (getslice x _ _)) as [xs|e]; [|destruct H].
    rewrite log_bind_lift in H. now destruct (InsertPoint _ _ _).
Qed.

Lemma fiber_step_log v fib ev :
  In ev (log_of (FiberReader.fiber_step v fib)) ->
  exists n i x len,
    getitem fib "n_nodes_" = Ok (PyInt n) /\ (0 <= i < n)%Z /\
    getitem fib "x_" = Ok x /\ sliced_length x = Some len /\
    ev = EvSlice len (3 + i * 3) (Some (3 + i * 3 + 3)%Z).
Proof.
  unfold FiberReader.fiber_step. rewrite log_bind_lift.
  destruct (getitem fib "n_nodes_") as [nn|e]; [|cbn; intros []].
  rewrite log_bind_lift. unfold InsertNextCell, SetNumberOfIds, range.
  destruct nn as [|n| | | |]; try (cbn; intros []).
  cbn [as_id]. rewrite !log_bind_lift. intros H.
  apply log_for_each in H. destruct H as (v' & i & Hi & H).
  apply point_step_log in H. destruct H as (x & len & Hx & Hlen & ->).
  apply in_map_iff in Hi. destruct Hi as (j & <- & Hj). apply in_seq in Hj.
  exists n, (Z.of_nat j), x, len. repeat split; try assumption; lia.
Qed.

Lemma fiber_output_log frame ev :
  In ev (log_of (FiberReader.output frame)) ->
  exists items fib n i x len,
    items_of "fibers" frame = Ok items /\ In fib items /\
    getitem fib "n_nodes_" = Ok (PyInt n) /\ (0 <= i < n)%Z /\
    getitem fib "x_" = Ok x /\ sliced_length x = Some len /\
    ev = EvSlice len (3 + i * 3) (Some (3 + i * 3 + 3)%Z).
Proof.
  unfold FiberReader.output, FiberReader.build, items_of.
  rewrite log_bind. intros H. apply in_app_or in H. destruct H as [H|H].
  2:{ destruct (outcome _); destruct H. }
  rewrite log_bind_lift in H.
  destruct (getitem frame "fibers") as [fibers|e]; [|destruct H].
  rewrite log_bind_lift in H.
  destruct (iter fibers) as [items|e]; [|destruct H].
  apply log_for_each in H. destruct H as (v & fib & Hfib & H).
  apply fiber_step_log in H.
  destruct H as (n & i & x & len & Hn & Hi & Hx & Hlen & ->).
  now exists items, fib, n, i, x, len.
Qed.

Lemma fiber_reader_log FHS FPOS lf (self : source FHS FPOS) ev :
  In ev (log_of (FiberReader.fiber_reader lf self)) ->
  (exists k, ev = EvLoadFrame k) \/
  exists frame, outcome (FiberReader.frame_of lf self) = Ok frame /\
                In ev (log_of (FiberReader.output frame)).
Proof.
  unfold FiberReader.fiber_reader. rewrite log_bind. intros H.
  apply in_app_or in H. destruct H as [H|H].
  - left. unfold FiberReader.frame_of in H. cbv zeta in H.
    rewrite log_bind_lift in H. destruct (int _) as [k|e]; [|destruct H].
    rewrite log_bind in H. apply in_app_or in H. destruct H as [[<-|[]]|H].
    + now exists k.
    + cbn in H. destruct H.
  - right. destruct (outcome (FiberReader.frame_of lf self)) as [frame|e];
      [|destruct H]. now exists frame.
Qed.

Lemma firstn_window {A} (l l' : list A) m a c :
  firstn m l = firstn m l' -> a + c <= m ->
  firstn c (skipn a l) = firstn c (skipn a l').
Proof.
  intros H Hm. rewrite !firstn_skipn_comm. f_equal.
  assert (E : forall k : list A, firstn (a + c) k = firstn (a + c) (firstn m k)).
  { intros k. rewrite firstn_firstn. f_equal. lia. }
  now rewrite (E l), (E l'), H.
Qed.

Lemma Forall2_ext_in {A B} (R R' : A -> B -> Prop) xs ys :
  Forall2 R xs ys ->
  (forall x y, In x xs -> R x y -> R' x y) ->
  Forall2 R' xs ys.
Proof.
  induction 1 as [|x y xs ys Hxy _ IH]; intros H; constructor.
  - apply H; [now left|assumption].
  - apply IH. intros x' y' Hin. apply H. now right.
Qed.

Lemma reads_fiber_prefix fib fib' n x x' ps :
  getitem fib "n_nodes_" = Ok (PyInt n) ->
  getitem fib' "n_nodes_" = Ok (PyInt n) ->
  getitem fib "x_" = Ok (PyList x) ->
  getitem fib' "x_" = Ok (PyList x') ->
  firstn (3 + 3 * Z.to_nat n) x = firstn (3 + 3 * Z.to_nat n) x' ->
  reads_fiber fib n ps -> reads_fiber fib' n ps.
Proof.
  intros Hn Hn' Hx Hx' Hpre [_ Hps]. split; [assumption|].
  apply (Forall2_ext_in _ _ _ _ Hps). intros i p Hin Hp.
  apply in_map_iff in Hin. destruct Hin as (j & <- & Hj). apply in_seq in Hj.
  rewrite (node_of_list _ _ _ Hx) in Hp. rewrite (node_of_list _ _ _ Hx').
  rewrite <- Hp. do 2 f_equal. symmetry.
  apply (firstn_window _ _ _ _ _ Hpre). lia.
Qed.

(** C7.  The fiber reader never compares a record's node count with the
    length of its buffer: two records with the same count whose buffers
    agree on the header and the announced nodes are read alike, whatever
    else, and however much, their buffers hold.  And when every fiber record
    of the loaded frame is consistent (its buffer has at least
    3 + 3 * n_nodes_ entries), every slice the reader takes lies within the
    buffer it is taken from: it asks for the three entries from an index of
    at least 3 up to an end that does not exceed the buffer's length. *)
Theorem fiber_reader_slices_in_bounds
    (FHS FPOS : Type) (load_frame : FHS -> FPOS -> Z -> result pyval)
    (self : source FHS FPOS) :
  (forall fib fib' n x x' ps,
      getitem fib "n_nodes_" = Ok (PyInt n) ->
      getitem fib' "n_nodes_" = Ok (PyInt n) ->
      getitem fib "x_" = Ok (PyList x) ->
      getitem fib' "x_" = Ok (PyList x') ->
      firstn (3 + 3 * Z.to_nat n) x = firstn (3 + 3 * Z.to_nat n) x' ->
      (reads_fiber fib n ps <-> reads_fiber fib' n ps)) /\
  ((forall frame items,
      outcome (FiberReader.frame_of load_frame self) = Ok frame ->
      items_of "fibers" frame = Ok items ->
      Forall consistent_fiber items) ->
   Forall in_bounds (log_of (FiberReader.fiber_reader load_frame self)) /\
   forall len lo hi,
     In (EvSlice len lo hi) (log_of (FiberReader.fiber_reader load_frame self)) ->
     hi = Some (lo + 3)%Z /\ (3 <= lo)%Z /\ (lo + 3 <= Z.of_nat len)%Z).
Proof.
  split.
  - intros fib fib' n x x' ps Hn Hn' Hx Hx' Hpre. split.
    + now apply (reads_fiber_prefix fib fib' n x x').
    + now apply (reads_fiber_prefix fib' fib n x' x).
  - intros Hcons.
    assert (Hslice : forall len lo hi,
      In (EvSlice len lo hi) (log_of (FiberReader.fiber_reader load_frame self)) ->
      hi = Some (lo + 3)%Z /\ (3 <= lo)%Z /\ (lo + 3 <= Z.of_nat len)%Z).
    { intros len lo hi H. apply fiber_reader_log in H.
      destruct H as [[k Hk]|(frame & Hframe & H)]; [discriminate|].
      apply fiber_output_log in H.
      destruct H as (items & fib & n & i & x & len' & Hitems & Hfib & Hn & Hi
                     & Hx & Hlen & Hev).
      injection Hev as -> -> ->.
      pose proof (Hcons frame items Hframe Hitems) as Hall.
      rewrite Forall_forall in Hall.
      destruct (Hall fib Hfib) as (n' & x' & Hn' & Hx' & Hle).
      rewrite Hn in Hn'. injection Hn' as <-.
      rewrite Hx in Hx'. injection Hx' as ->.
      cbn in Hlen. injection Hlen as <-.
      repeat split; lia. }
    split; [|exact Hslice].
    apply Forall_forall. intros [k|len lo hi] Hin; [exact I|].
    destruct (Hslice len lo hi Hin) as (-> & Hlo & Hhi). cbn. lia.
Qed.

Lemma fiber_reader_slices_in_bounds_witness :
  Forall in_bounds
    (log_of (FiberReader.fiber_reader (Sample.loader [Sample.frame0])
                                      (Sample.self None))).
Proof.
  apply (proj2 (fiber_reader_slices_in_bounds unit unit
                  (Sample.loader [Sample.frame0]) (Sample.self None))).
  intros frame items Hframe Hitems.
  cbv in Hframe. injection Hframe as <-.
  cbv in Hitems. injection Hitems as <-.
  repeat first [apply Forall_nil | apply Forall_cons];
    eexists _, _; repeat split; try reflexivity; cbn; lia.
Defined.

(** ** The body loop *)

Lemma sphere_of_outcome body :
  outcome (BodyReader.sphere_of body) =
  match center body with
  | Ok c => Ok (sphere c)
  | Raise e => Raise e
  end.
Proof.
  unfold BodyReader.sphere_of, center, SetCenter.
  destruct (getitem body "position_") as [x|e]; [|reflexivity].
  destruct x as [| | |s|l|]; try reflexivity.
  cbn. destruct (as_double3 _); reflexivity.
Qed.

Lemma body_step_outcome v body :
  outcome (BodyReader.body_step v body) =
  match center body with
  | Ok c =>
      Ok {| BodyReader.mb := set_slot (BodyReader.offset v) (sphere c) (BodyReader.mb v);
            BodyReader.offset := BodyReader.offset v + 1 |}
  | Raise e => Raise e
  end.
Proof.
  unfold BodyReader.body_step, SetBlock.
  rewrite outcome_bind, sphere_of_outcome. now destruct (center body).
Qed.

Lemma body_loop : forall items v,
  List.length (BodyReader.mb v) = BodyReader.offset v ->
  (exists cs,
      body_centers items cs /\
      outcome (for_each BodyReader.body_step items v) =
      Ok {| BodyReader.mb := BodyReader.mb v ++ blocks_of cs;
            BodyReader.offset := BodyReader.offset v + List.length cs |}) \/
  (exists e,
      outcome (for_each BodyReader.body_step items v) = Raise e /\
      ~ Forall (fun body => exists c, center body = Ok c) items).
Proof.
  induction items as [|body items IH]; intros v Hv.
  - left. exists []. split; [constructor|].
    destruct v; cbn. now rewrite app_nil_r, Nat.add_0_r.
  - cbn [for_each]. rewrite outcome_bind, body_step_outcome.
    destruct (center body) as [c|e] eqn:Ec.
    + set (v1 := {| BodyReader.mb := _ |}).
      destruct (IH v1) as [(cs & Hcs & Hout)|(e & Hout & Hno)].
      * subst v1. cbn. rewrite <- Hv, set_slot_at_length, length_app. reflexivity.
      * left. exists (c :: cs). split; [now constructor|].
        rewrite Hout. subst v1. cbn.
        rewrite <- Hv, set_slot_at_length, <- app_assoc. cbn.
        unfold blocks_of. do 2 f_equal. lia.
      * right. exists e. split; [assumption|].
        intros H. apply Hno. now inversion H.
    + right. exists e. split; [reflexivity|].
      intros H. inversion H as [|? ? [c Hc] ?]; subst. congruence.
Qed.

(** Every run of lines 13-26 of the body reader goes one of two ways. *)
Lemma body_output_cases frame :
  (exists items cs,
      items_of "bodies" frame = Ok items /\
      body_centers items cs /\
      outcome (BodyReader.output frame) = Ok (blocks_of cs)) \/
  (exists e,
      outcome (BodyReader.output frame) = Raise e /\
      (items_of "bodies" frame = Raise e \/
       exists items, items_of "bodies" frame = Ok items /\
                     ~ Forall (fun body => exists c, center body = Ok c) items)).
Proof.
  unfold BodyReader.output, BodyReader.build, items_of.
  destruct (getitem frame "bodies") as [bodies|e].
  2:{ right. exists e. split; [reflexivity|now left]. }
  rewrite (bind_lift_ok _ _ _ eq_refl).
  destruct (iter bodies) as [items|e].
  2:{ right. exists e. split; [reflexivity|now left]. }
  rewrite (bind_lift_ok _ _ _ eq_refl), outcome_bind.
  destruct (body_loop items BodyReader.init eq_refl)
    as [(cs & Hcs & Hout)|(e & Hout & Hno)]; rewrite Hout.
  - left. now exists items, cs.
  - right. exists e. split; [reflexivity|]. right. now exists items.
Qed.

Lemma body_reader_outcome FHS FPOS lf (self : source FHS FPOS) :
  outcome (BodyReader.body_reader lf self) =
  match outcome (BodyReader.frame_of lf self) with
  | Ok frame => outcome (BodyReader.output frame)
  | Raise e => Raise e
  end.
Proof. unfold BodyReader.body_reader. apply outcome_bind. Qed.

Lemma as_double3_length l c : as_double3 (PyList l) = Ok c -> List.length l = 3.
Proof.
  unfold as_double3. destruct l as [|a [|b [|d [|e r]]]]; try discriminate.
  reflexivity.
Qed.

Lemma center_ok_iff body c :
  center body = Ok c <->
  exists x, getitem body "position_" = Ok (PyList x) /\
            List.length x = 6 /\ triple_at x 3 = Some c.
Proof.
  assert (E : forall x, getitem body "position_" = Ok (PyList x) ->
                        center body = as_double3 (PyList (skipn 3 x))).
  { intros x Hx. unfold center. rewrite Hx. cbn.
    change 3%Z with (Z.of_nat 3). now rewrite slice_list_from. }
  split.
  - intros H. destruct (getitem body "position_") as [x|e] eqn:Hx.
    + destruct x as [| | |s|x|];
        try (unfold center in H; rewrite Hx in H; discriminate).
      exists x. split; [reflexivity|]. rewrite (E x eq_refl) in H.
      pose proof (as_double3_length _ _ H) as Hl. rewrite length_skipn in Hl.
      split; [lia|]. apply as_double3_triple.
      rewrite firstn_all2 by (rewrite length_skipn; lia). exact H.
    + unfold center in H. rewrite Hx in H. discriminate.
  - intros (x & Hx & Hl & Ht). rewrite (E x Hx).
    apply as_double3_triple in Ht.
    now rewrite firstn_all2 in Ht by (rewrite length_skipn; lia).
Qed.

Lemma well_formed_center body :
  well_formed_body body -> exists c, center body = Ok c.
Proof.
  intros (x & Hx & Hl & Hnum).
  destruct (well_formed_triple x 1 0) as [c Hc]; [lia| |lia|].
  - rewrite firstn_all2; [assumption|]. rewrite length_skipn. lia.
  - exists c. apply center_ok_iff. now exists x.
Qed.

(** C2.  For a frame of well-formed body records the body reader produces
    its output; the multiblock dataset has exactly one block per body
    record, and block [k] holds the sphere generated for the [k]-th record
    (radius 0.5, resolutions 32, centred where that record puts it). *)
Theorem body_reader_blocks
    (FHS FPOS : Type) (load_frame : FHS -> FPOS -> Z -> result pyval)
    (self : source FHS FPOS) (frame : pyval) (items : list pyval) :
  outcome (BodyReader.frame_of load_frame self) = Ok frame ->
  items_of "bodies" frame = Ok items ->
  Forall well_formed_body items ->
  exists out,
    outcome (BodyReader.body_reader load_frame self) = Ok out /\
    List.length out = List.length items /\
    forall k body,
      nth_error items k = Some body ->
      exists c, center body = Ok c /\ nth_error out k = Some (Some (sphere c)).
Proof.
  intros Hframe Hitems Hwf.
  destruct (body_output_cases frame)
    as [(items' & cs & Hi & Hcs & Hout)|(e & _ & [Hi|(items' & Hi & Hno)])].
  - rewrite Hitems in Hi. injection Hi as <-.
    exists (blocks_of cs). rewrite body_reader_outcome, Hframe.
    split; [exact Hout|]. split.
    + unfold blocks_of. rewrite length_map. symmetry. apply (Forall2_length Hcs).
    + intros k body Hk.
      destruct (Forall2_nth_error_l _ _ _ Hcs k body Hk) as (c & Hc & Hcenter).
      exists c. split; [assumption|].
      unfold blocks_of. now rewrite nth_error_map, Hc.
  - congruence.
  - rewrite Hitems in Hi. injection Hi as <-. destruct Hno.
    rewrite Forall_forall in *. intros body Hin.
    now apply well_formed_center, Hwf.
Qed.

Lemma body_reader_blocks_witness :
  exists out,
    outcome (BodyReader.body_reader (Sample.loader [Sample.frame0])
                                    (Sample.self None)) = Ok out /\
    List.length out = List.length Sample.bodies0 /\
    forall k body,
      nth_error Sample.bodies0 k = Some body ->
      exists c, center body = Ok c /\ nth_error out k = Some (Some (sphere c)).
Proof.
  apply (body_reader_blocks unit unit (Sample.loader [Sample.frame0])
           (Sample.self None) Sample.frame0 Sample.bodies0).
  - reflexivity.
  - reflexivity.
  - unfold Sample.bodies0, well_formed_body. well_formed_sample.
Defined.

(** C5, as the code has it.  Whenever the body reader produces its output,
    the position value of every body record is a list of exactly six
    entries and the sphere in the record's block is centred at its entries
    3, 4 and 5, that is at [position_[3:]]: the position value without its
    three-entry header. *)
Theorem body_reader_center
    (FHS FPOS : Type) (load_frame : FHS -> FPOS -> Z -> result pyval)
    (self : source FHS FPOS) (frame : pyval) (items : list pyval)
    (out : vtkMultiBlockDataSet) :
  outcome (BodyReader.frame_of load_frame self) = Ok frame ->
  items_of "bodies" frame = Ok items ->
  outcome (BodyReader.body_reader load_frame self) = Ok out ->
  forall k body,
    nth_error items k = Some body ->
    exists x s,
      getitem body "position_" = Ok (PyList x) /\
      List.length x = 6 /\
      nth_error out k = Some (Some s) /\
      triple_at x 3 = Some (Center s).
Proof.
  intros Hframe Hitems Hout k body Hk.
  rewrite body_reader_outcome, Hframe in Hout.
  destruct (body_output_cases frame)
    as [(items' & cs & Hi & Hcs & Hout')|(e & Hout' & _)]; [|congruence].
  rewrite Hitems in Hi. injection Hi as <-.
  rewrite Hout in Hout'. injection Hout' as ->.
  destruct (Forall2_nth_error_l _ _ _ Hcs k body Hk) as (c & Hc & Hcenter).
  apply center_ok_iff in Hcenter. destruct Hcenter as (x & Hx & Hl & Ht).
  exists x, (sphere c). repeat split; try assumption.
  unfold blocks_of. now rewrite nth_error_map, Hc.
Qed.

Lemma body_reader_center_witness :
  exists x s,
    getitem (Sample.body [Sample.f 2 0; Sample.f 2 0; PyInt 5]) "position_" =
      Ok (PyList x) /\
    List.length x = 6 /\
    nth_error
      [Some (sphere (NFloat (S754_finite false 1 0), NFloat (S754_finite false 1 0),
                     NFloat (S754_finite false 1 0)));
       Some (sphere (NFloat (S754_finite false 2 0), NFloat (S754_finite false 2 0),
                     NInt 5))] 1 = Some (Some s) /\
    triple_at x 3 = Some (Center s).
Proof.
  apply (body_reader_center unit unit (Sample.loader [Sample.frame0])
           (Sample.self None) Sample.frame0 Sample.bodies0);
    reflexivity.
Defined.

(** C5, as the claim words it, fails.  The position value of [Sample.body1]
    is a list of six numbers; the sphere made for it is centred at the last
    three, which is neither the value itself nor its leading triple.  And
    for [Sample.body2], whose position value is itself a three-vector, no
    sphere is made at all: the reader raises. *)
Lemma body_reader_center_not_full_position :
  (getitem Sample.body1 "position_" = Ok (PyList Sample.buffer1) /\
   exists out s,
     outcome (BodyReader.body_reader (Sample.loader [Sample.frame1])
                                     (Sample.self None)) = Ok out /\
     nth_error out 0 = Some (Some s) /\
     Center s = (NInt 1, NInt 2, NInt 3) /\
     map as_number Sample.buffer1 <>
       (let '(a, b, c) := Center s in [Some a; Some b; Some c]) /\
     triple_at Sample.buffer1 0 = Some (NInt 10, NInt 20, NInt 30)) /\
  (as_double3 (PyList [PyInt 1; PyInt 2; PyInt 3]) = Ok (NInt 1, NInt 2, NInt 3) /\
   getitem Sample.body2 "position_" = Ok (PyList [PyInt 1; PyInt 2; PyInt 3]) /\
   outcome (BodyReader.body_reader (Sample.loader [Sample.frame2])
                                   (Sample.self None)) = Raise TypeError).
Proof.
  split.
  - split; [reflexivity|]. eexists _, _. split; [vm_compute; reflexivity|].
    repeat split; try reflexivity. discriminate.
  - repeat split; reflexivity.
Qed.

(** ** The poly line that is built and dropped *)

Lemma sim_ret {S} (R : S -> S -> Prop) a b : R a b -> sim R (ret a) (ret b).
Proof. now split. Qed.

Lemma sim_bind {S T} (R : S -> S -> Prop) (R' : T -> T -> Prop) c d k k' :
  sim R c d ->
  (forall a b, R a b -> sim R' (k a) (k' b)) ->
  sim R' (bind c k) (bind d k').
Proof.
  intros [Hlog Hout] Hk. unfold sim. rewrite !log_bind, !outcome_bind, Hlog.
  destruct (outcome c) as [a|e], (outcome d) as [b|e']; try contradiction.
  - destruct (Hk a b Hout) as [Hl Ho]. now rewrite Hl.
  - now subst.
Qed.

Lemma sim_refl {S} (c : M S) : sim eq c c.
Proof. split; [reflexivity|]. now destruct (outcome c). Qed.

Lemma sim_bind_same {S T} (R' : T -> T -> Prop) (c : M S) k k' :
  (forall a, sim R' (k a) (k' a)) -> sim R' (bind c k) (bind c k').
Proof.
  intros Hk. apply (sim_bind eq); [apply sim_refl|]. intros a b <-. apply Hk.
Qed.

Lemma sim_eq {S} (c d : M S) : sim eq c d -> c = d.
Proof.
  intros [Hlog Hout]. rewrite (surjective_run c), (surjective_run d), Hlog.
  f_equal. destruct (outcome c), (outcome d); try contradiction; now subst.
Qed.

Lemma for_each_sim {A S} (R : S -> S -> Prop) (body body' : S -> A -> M S) :
  (forall s s' x, R s s' -> sim R (body s x) (body' s' x)) ->
  forall xs s s', R s s' -> sim R (for_each body xs s) (for_each body' xs s').
Proof.
  intros Hb. induction xs as [|x xs IH]; intros s s' Hs; cbn [for_each].
  - now apply sim_ret.
  - apply (sim_bind R); [now apply Hb|]. intros a b Hab. now apply IH.
Qed.

Lemma point_step_sim fib v w i :
  agree v w ->
  sim agree (FiberReader.point_step fib v i) (FiberReader.point_step fib w i).
Proof.
  intros (Hp & Hl & Ho). unfold FiberReader.point_step. cbv zeta.
  rewrite Hp, Hl, Ho.
  apply sim_bind_same; intros x. apply sim_bind_same; intros xs.
  apply sim_bind_same; intros pts'. apply sim_ret. now repeat split.
Qed.

Lemma fiber_step_sim v w fib :
  agree v w ->
  sim agree (FiberReader.fiber_step v fib) (FiberReader.fiber_step_no_pl w fib).
Proof.
  intros (Hp & Hl & Ho).
  unfold FiberReader.fiber_step, FiberReader.fiber_step_no_pl.
  rewrite Hp, Hl, Ho.
  destruct (getitem fib "n_nodes_") as [nn|e]; [|now split].
  rewrite !(bind_lift_ok _ _ _ eq_refl).
  destruct nn as [|n| | | |]; try (now split).
  unfold InsertNextCell, SetNumberOfIds, range. cbn [as_id].
  rewrite !(bind_lift_ok _ _ _ eq_refl).
  apply for_each_sim.
  - intros s s' i Hs. now apply point_step_sim.
  - now repeat split.
Qed.

(** C10.  The poly line object [pl] never reaches the output: the fiber
    reader and the same script without the two lines that create and size
    [pl] leave the same log and end with the same output or the same
    fault. *)
Theorem fiber_reader_without_pl
    (FHS FPOS : Type) (load_frame : FHS -> FPOS -> Z -> result pyval)
    (self : source FHS FPOS) :
  FiberReader.fiber_reader load_frame self =
  FiberReader.fiber_reader_no_pl load_frame self.
Proof.
  apply sim_eq. unfold FiberReader.fiber_reader, FiberReader.fiber_reader_no_pl.
  apply sim_bind_same; intros frame.
  unfold FiberReader.output, FiberReader.output_no_pl.
  apply (sim_bind agree).
  - unfold FiberReader.build, FiberReader.build_no_pl.
    apply sim_bind_same; intros fibers. apply sim_bind_same; intros items.
    apply for_each_sim.
    + intros s s' fib Hs. now apply fiber_step_sim.
    + now repeat split.
  - intros v w (Hp & Hl & _). apply sim_ret. now rewrite Hp, Hl.
Qed.

(** ** When a reader raises *)

Lemma raises_not_returns {A} (c : M A) : raises c <-> ~ returns c.
Proof.
  unfold raises, returns. destruct (outcome c) as [a|e]; split.
  - intros [e H]. discriminate.
  - intros H. destruct H. now exists a.
  - intros _ [a H]. discriminate.
  - intros _. now exists e.
Qed.

Lemma fiber_frame_of_outcome FHS FPOS lf (self : source FHS FPOS) :
  outcome (FiberReader.frame_of lf self) =
  match int (FiberReader.time (GetOutputInformation self 0)) with
  | Ok k => lf (fhs self) (fpos self) k
  | Raise e => Raise e
  end.
Proof.
  unfold FiberReader.frame_of. cbv zeta. rewrite outcome_bind.
  destruct (int _) as [k|e]; [|reflexivity]. cbn.
  now destruct (lf (fhs self) (fpos self) k).
Qed.

Lemma body_frame_of_outcome FHS FPOS lf (self : source FHS FPOS) :
  outcome (BodyReader.frame_of lf self) =
  match int (BodyReader.time (GetOutputInformation self 0)) with
  | Ok k => lf (fhs self) (fpos self) k
  | Raise e => Raise e
  end.
Proof.
  unfold BodyReader.frame_of. cbv zeta. rewrite outcome_bind.
  destruct (int _) as [k|e]; [|reflexivity]. cbn.
  now destruct (lf (fhs self) (fpos self) k).
Qed.

Lemma fiber_output_returns frame :
  returns (FiberReader.output frame) <->
  exists items, items_of "fibers" frame = Ok items /\ Forall acceptable_fiber items.
Proof.
  split.
  - intros [out Hout].
    destruct (fiber_output_cases frame)
      as [(items & recs & Hi & Hr & _)|(e & He & _)]; [|congruence].
    exists items. split; [assumption|].
    apply Forall_forall. intros fib Hin.
    apply readable_acceptable.
    apply (Forall2_Forall_l _ _ _) in Hr. rewrite Forall_forall in Hr.
    destruct (Hr fib Hin) as [[n ps] H]. now exists n, ps.
  - intros (items & Hi & Hacc).
    destruct (fiber_output_cases frame)
      as [(items' & recs & _ & _ & Hout)|(e & _ & [He|(items' & Hi' & Hno)])].
    + eexists. exact Hout.
    + congruence.
    + rewrite Hi in Hi'. injection Hi' as <-. destruct Hno.
      apply Forall_forall. intros fib Hin. apply readable_acceptable.
      rewrite Forall_forall in Hacc. now apply Hacc.
Qed.

Lemma body_output_returns frame :
  returns (BodyReader.output frame) <->
  exists items, items_of "bodies" frame = Ok items /\ Forall acceptable_body items.
Proof.
  split.
  - intros [out Hout].
    destruct (body_output_cases frame)
      as [(items & cs & Hi & Hcs & _)|(e & He & _)]; [|congruence].
    exists items. split; [assumption|].
    apply Forall_forall. intros body Hin.
    apply (Forall2_Forall_l _ _ _) in Hcs. rewrite Forall_forall in Hcs.
    destruct (Hcs body Hin) as [c Hc]. apply center_ok_iff in Hc.
    destruct Hc as (x & Hx & Hl & Ht). now exists x, c.
  - intros (items & Hi & Hacc).
    destruct (body_output_cases frame)
      as [(items' & cs & _ & _ & Hout)|(e & _ & [He|(items' & Hi' & Hno)])].
    + eexists. exact Hout.
    + congruence.
    + rewrite Hi in Hi'. injection Hi' as <-. destruct Hno.
      apply Forall_forall. intros body Hin.
      rewrite Forall_forall in Hacc. destruct (Hacc body Hin) as (x & c & H).
      exists c. apply center_ok_iff. now exists x.
Qed.

Lemma fiber_reader_returns FHS FPOS lf (self : source FHS FPOS) :
  returns (FiberReader.fiber_reader lf self) <->
  exists k frame items,
    int (FiberReader.time (GetOutputInformation self 0)) = Ok k /\
    lf (fhs self) (fpos self) k = Ok frame /\
    items_of "fibers" frame = Ok items /\ Forall acceptable_fiber items.
Proof.
  unfold returns at 1. rewrite fiber_reader_outcome, fiber_frame_of_outcome.
  split.
  - intros [out H]. destruct (int _) as [k|e]; [|discriminate].
    destruct (lf (fhs self) (fpos self) k) as [frame|e] eqn:El; [|discriminate].
    destruct (proj1 (fiber_output_returns frame)) as (items & Hi & Hacc);
      [now exists out|].
    now exists k, frame, items.
  - intros (k & frame & items & -> & -> & Hi & Hacc).
    apply fiber_output_returns. now exists items.
Qed.

Lemma body_reader_returns FHS FPOS lf (self : source FHS FPOS) :
  returns (BodyReader.body_reader lf self) <->
  exists k frame items,
    int (BodyReader.time (GetOutputInformation self 0)) = Ok k /\
    lf (fhs self) (fpos self) k = Ok frame /\
    items_of "bodies" frame = Ok items /\ Forall acceptable_body items.
Proof.
  unfold returns at 1. rewrite body_reader_outcome, body_frame_of_outcome.
  split.
  - intros [out H]. destruct (int _) as [k|e]; [|discriminate].
    destruct (lf (fhs self) (fpos self) k) as [frame|e] eqn:El; [|discriminate].
    destruct (proj1 (body_output_returns frame)) as (items & Hi & Hacc);
      [now exists out|].
    now exists k, frame, items.
  - intros (k & frame & items & -> & -> & Hi & Hacc).
    apply body_output_returns. now exists items.
Qed.

Lemma fiber_output_items_raise frame e :
  items_of "fibers" frame = Raise e -> outcome (FiberReader.output frame) = Raise e.
Proof.
  unfold items_of, FiberReader.output, FiberReader.build. intros H.
  destruct (getitem frame "fibers") as [fibers|e'].
  - rewrite (bind_lift_ok _ _ _ eq_refl). now rewrite H.
  - now injection H as ->.
Qed.

Lemma body_output_items_raise frame e :
  items_of "bodies" frame = Raise e -> outcome (BodyReader.output frame) = Raise e.
Proof.
  unfold items_of, BodyReader.output, BodyReader.build. intros H.
  destruct (getitem frame "bodies") as [bodies|e'].
  - rewrite (bind_lift_ok _ _ _ eq_refl). now rewrite H.
  - now injection H as ->.
Qed.

(** C6, as the code has it.  Neither reader recovers from a fault or puts
    anything in place of its output: a fault of [int(time)], of the loader
    or of the lookup of the frame's record collection is the reader's own
    outcome, unchanged.  A reader returns exactly when [int(time)] has a
    value, the loader returns a frame, the frame's collection is there and
    can be iterated, and every record is acceptable; it raises in every other
    case, also when nothing went wrong in loading the frame or in looking up
    a field (a node count that is not an [int], a buffer or a position that
    does not hold three numbers where they are sliced). *)
Theorem readers_raise_exactly
    (FHS FPOS : Type) (load_frame : FHS -> FPOS -> Z -> result pyval)
    (self : source FHS FPOS) :
  let outInfo := GetOutputInformation self 0 in
  let fiber_run := FiberReader.fiber_reader load_frame self in
  let body_run := BodyReader.body_reader load_frame self in
  (forall e, int (FiberReader.time outInfo) = Raise e ->
     outcome fiber_run = Raise e /\ outcome body_run = Raise e) /\
  (forall k e, int (FiberReader.time outInfo) = Ok k ->
     load_frame (fhs self) (fpos self) k = Raise e ->
     outcome fiber_run = Raise e /\ outcome body_run = Raise e) /\
  (forall k frame e, int (FiberReader.time outInfo) = Ok k ->
     load_frame (fhs self) (fpos self) k = Ok frame ->
     (items_of "fibers" frame = Raise e -> outcome fiber_run = Raise e) /\
     (items_of "bodies" frame = Raise e -> outcome body_run = Raise e)) /\
  (raises fiber_run <->
   ~ exists k frame items,
       int (FiberReader.time outInfo) = Ok k /\
       load_frame (fhs self) (fpos self) k = Ok frame /\
       items_of "fibers" frame = Ok items /\ Forall acceptable_fiber items) /\
  (raises body_run <->
   ~ exists k frame items,
       int (BodyReader.time outInfo) = Ok k /\
       load_frame (fhs self) (fpos self) k = Ok frame /\
       items_of "bodies" frame = Ok items /\ Forall acceptable_body items).
Proof.
  cbv zeta.
  assert (Ht : BodyReader.time (GetOutputInformation self 0) =
               FiberReader.time (GetOutputInformation self 0)) by reflexivity.
  repeat split.
  - rewrite fiber_reader_outcome, fiber_frame_of_outcome. now rewrite H.
  - rewrite body_reader_outcome, body_frame_of_outcome, Ht. now rewrite H.
  - rewrite fiber_reader_outcome, fiber_frame_of_outcome. now rewrite H, H0.
  - rewrite body_reader_outcome, body_frame_of_outcome, Ht. now rewrite H, H0.
  - intros Hi. rewrite fiber_reader_outcome, fiber_frame_of_outcome, H, H0.
    now apply fiber_output_items_raise.
  - intros Hi. rewrite body_reader_outcome, body_frame_of_outcome, Ht, H, H0.
    now apply body_output_items_raise.
  - intros Hr. apply raises_not_returns in Hr. intros Hex. apply Hr.
    now apply fiber_reader_returns.
  - intros Hno. apply raises_not_returns. intros Hret. apply Hno.
    now apply fiber_reader_returns.
  - intros Hr. apply raises_not_returns in Hr. intros Hex. apply Hr.
    now apply body_reader_returns.
  - intros Hno. apply raises_not_returns. intros Hret. apply Hno.
    now apply body_reader_returns.
Qed.

Lemma readers_raise_exactly_witness :
  outcome (FiberReader.fiber_reader (Sample.loader []) (Sample.self None)) =
    Raise (OtherError "no such frame") /\
  outcome (BodyReader.body_reader (Sample.loader []) (Sample.self None)) =
    Raise (OtherError "no such frame").
Proof.
  apply (proj1 (proj2 (readers_raise_exactly unit unit (Sample.loader [])
                         (Sample.self None))) 0%Z);
    reflexivity.
Defined.

(** C6, as the claim words it, fails.  The frame [Sample.frame2] is loaded
    and every subscript and slice taken from it and from its records
    succeeds, yet both readers raise: the fiber's node count is the float
    2.0, the body's position is a bare three-vector. *)
Lemma readers_raise_without_failed_access :
  (outcome (FiberReader.frame_of (Sample.loader [Sample.frame2]) (Sample.self None)) =
     Ok Sample.frame2 /\
   items_of "fibers" Sample.frame2 = Ok [Sample.fiber2] /\
   getitem Sample.fiber2 "n_nodes_" = Ok (Sample.f 1 1) /\
   (exists x, getitem Sample.fiber2 "x_" = Ok (PyList x)) /\
   outcome (FiberReader.fiber_reader (Sample.loader [Sample.frame2])
                                     (Sample.self None)) = Raise TypeError) /\
  (outcome (BodyReader.frame_of (Sample.loader [Sample.frame2]) (Sample.self None)) =
     Ok Sample.frame2 /\
   items_of "bodies" Sample.frame2 = Ok [Sample.body2] /\
   getitem Sample.body2 "position_" = Ok (PyList [PyInt 1; PyInt 2; PyInt 3]) /\
   outcome (getslice (PyList [PyInt 1; PyInt 2; PyInt 3]) 3 None) = Ok (PyList []) /\
   outcome (BodyReader.body_reader (Sample.loader [Sample.frame2])
                                   (Sample.self None)) = Raise TypeError).
Proof.
  repeat split; try reflexivity. eexists. reflexivity.
Qed.

(** * Further properties of the scripts *)

(** ** Loops over a list that is put together *)

Lemma bind_assoc {A B C} (c : M A) (k : A -> M B) (k' : B -> M C) :
  bind (bind c k) k' = bind c (fun a => bind (k a) k').
Proof.
  destruct c as [l [a|e]]; [|reflexivity].
  unfold bind at 2 3. destruct (k a) as [l2 [b|e]]; cbn.
  - destruct (k' b) as [l3 r]. now rewrite app_assoc.
  - reflexivity.
Qed.

Lemma bind_ret_l {A B} (a : A) (k : A -> M B) : bind (ret a) k = k a.
Proof. unfold bind, ret. now destruct (k a). Qed.

Lemma bind_ext {A B} (c : M A) (k k' : A -> M B) :
  (forall a, k a = k' a) -> bind c k = bind c k'.
Proof. intros H. destruct c as [l [a|e]]; cbn; [now rewrite H|reflexivity]. Qed.

Lemma for_each_app {A S} (body : S -> A -> M S) xs ys s :
  for_each body (xs ++ ys) s = bind (for_each body xs s) (for_each body ys).
Proof.
  revert s. induction xs as [|x xs IH]; intros s; cbn [for_each app].
  - now rewrite bind_ret_l.
  - rewrite bind_assoc. apply bind_ext. intros s1. apply IH.
Qed.

Lemma for_each_stops {A S} (body : S -> A -> M S) good bad rest rest' s :
  (forall s1, raises (body s1 bad)) ->
  for_each body (good ++ bad :: rest) s = for_each body (good ++ bad :: rest') s.
Proof.
  intros Hbad. rewrite !for_each_app. apply bind_ext. intros s1.
  cbn [for_each]. destruct (Hbad s1) as [e He].
  rewrite (surjective_run (body s1 bad)), He. reflexivity.
Qed.

(** ** The first record that cannot be read *)

Lemma fiber_output_items frame items :
  items_of "fibers" frame = Ok items ->
  FiberReader.output frame =
  (v <- for_each FiberReader.fiber_step items FiberReader.init ;;
   ret {| Points := FiberReader.pts v; Lines := FiberReader.lines v |}).
Proof.
  unfold items_of, FiberReader.output, FiberReader.build. intros H.
  destruct (getitem frame "fibers") as [c|e]; [|discriminate].
  rewrite (bind_lift_ok _ _ _ eq_refl). now rewrite (bind_lift_ok _ _ _ H).
Qed.

Lemma body_output_items frame items :
  items_of "bodies" frame = Ok items ->
  BodyReader.output frame =
  (v <- for_each BodyReader.body_step items BodyReader.init ;;
   ret (BodyReader.mb v)).
Proof.
  unfold items_of, BodyReader.output, BodyReader.build. intros H.
  destruct (getitem frame "bodies") as [c|e]; [|discriminate].
  rewrite (bind_lift_ok _ _ _ eq_refl). now rewrite (bind_lift_ok _ _ _ H).
Qed.

Lemma as_double3_wrong_length l :
  List.length l <> 3 -> as_double3 (PyList l) = Raise TypeError.
Proof.
  unfold as_double3. destruct l as [|a [|b [|c [|d r]]]]; cbn; try reflexivity.
  intros H. now destruct H.
Qed.

Lemma fiber_defect_raises fib e v :
  fiber_defect fib e -> outcome (FiberReader.fiber_step v fib) = Raise e.
Proof.
  unfold FiberReader.fiber_step.
  intros [H|[(x & H & Hx)|[(n & H & Hn & Hx)|(n & x & H & Hn & Hx & Hl & ->)]]].
  - now rewrite H.
  - rewrite H, (bind_lift_ok _ _ _ eq_refl). unfold InsertNextCell. now rewrite Hx.
  - rewrite H, (bind_lift_ok _ _ _ eq_refl). unfold InsertNextCell, SetNumberOfIds, range.
    cbn [as_id]. rewrite !(bind_lift_ok _ _ _ eq_refl).
    destruct (Z.to_nat n) as [|k] eqn:E; [lia|].
    cbn [seq map for_each]. rewrite outcome_bind, point_step_outcome.
    unfold node. now rewrite Hx.
  - rewrite H, (bind_lift_ok _ _ _ eq_refl). unfold InsertNextCell, SetNumberOfIds, range.
    cbn [as_id]. rewrite !(bind_lift_ok _ _ _ eq_refl).
    destruct (Z.to_nat n) as [|k] eqn:E; [lia|].
    cbn [seq map for_each]. rewrite outcome_bind, point_step_outcome.
    rewrite (node_of_list _ _ 0 Hx), as_double3_wrong_length; [reflexivity|].
    rewrite length_firstn, length_skipn. lia.
Qed.

Lemma body_defect_raises body e v :
  body_defect body e -> outcome (BodyReader.body_step v body) = Raise e.
Proof.
  rewrite body_step_outcome.
  intros [H|[(x & H & Hx & ->)|(x & H & Hl & ->)]].
  - unfold center. now rewrite H.
  - unfold center. rewrite H. destruct x; try reflexivity; discriminate.
  - destruct (center body) as [c|e] eqn:Ec.
    + apply center_ok_iff in Ec. destruct Ec as (x' & Hx' & Hl' & _).
      rewrite H in Hx'. injection Hx' as <-. contradiction.
    + unfold center in Ec. rewrite H in Ec. cbn in Ec.
      change 3%Z with (Z.of_nat 3) in Ec. rewrite slice_list_from in Ec.
      rewrite as_double3_wrong_length in Ec; [congruence|].
      rewrite length_skipn. lia.
Qed.

Lemma acceptable_readable_all items :
  Forall acceptable_fiber items -> Forall readable_fiber items.
Proof.
  intros H. apply Forall_forall. intros fib Hin. apply readable_acceptable.
  rewrite Forall_forall in H. now apply H.
Qed.

(** X1.  The fiber reader fails on the first record it cannot read and with
    that record's fault: when the records before it are acceptable and it
    lacks the node count (KeyError), holds a node count that is not an int
    (TypeError), or announces a node while its buffer is missing (KeyError)
    or shorter than six entries (TypeError), that fault is the reader's
    outcome.  Whatever records follow it are never looked at: any other
    tail gives the very same run. *)
Theorem fiber_reader_first_fault
    (FHS FPOS : Type) (load_frame : FHS -> FPOS -> Z -> result pyval)
    (self : source FHS FPOS) (frame : pyval)
    (good : list pyval) (bad : pyval) (rest : list pyval) (e : exn) :
  outcome (FiberReader.frame_of load_frame self) = Ok frame ->
  items_of "fibers" frame = Ok (good ++ bad :: rest) ->
  Forall acceptable_fiber good ->
  fiber_defect bad e ->
  outcome (FiberReader.fiber_reader load_frame self) = Raise e /\
  forall frame' rest',
    items_of "fibers" frame' = Ok (good ++ bad :: rest') ->
    FiberReader.output frame' = FiberReader.output frame.
Proof.
  intros Hframe Hitems Hgood Hbad. split.
  - rewrite fiber_reader_outcome, Hframe, (fiber_output_items _ _ Hitems).
    rewrite outcome_bind, for_each_app, outcome_bind.
    destruct (fiber_loop good FiberReader.init eq_refl)
      as [(recs & v' & _ & Hv' & _)|(e' & _ & Hno)].
    + rewrite Hv'. cbn [for_each].
      now rewrite outcome_bind, (fiber_defect_raises _ _ _ Hbad).
    + destruct Hno. now apply acceptable_readable_all.
  - intros frame' rest' Hitems'.
    rewrite (fiber_output_items _ _ Hitems), (fiber_output_items _ _ Hitems').
    f_equal. apply for_each_stops. intros s1. exists e.
    now apply fiber_defect_raises.
Qed.

Lemma fiber_reader_first_fault_witness :
  outcome (FiberReader.fiber_reader
             (Sample.loader [Sample2.frame_bad_fiber [PyNone]])
             (Sample.self None)) = Raise (KeyError "n_nodes_").
Proof.
  refine (proj1 (fiber_reader_first_fault unit unit
                   (Sample.loader [Sample2.frame_bad_fiber [PyNone]])
                   (Sample.self None) (Sample2.frame_bad_fiber [PyNone])
                   [Sample.fiber 1 [Sample.f 7 0; Sample.f 8 0; Sample.f 9 0]]
                   Sample2.fiber_no_count [PyNone] (KeyError "n_nodes_")
                   _ _ _ _)).
  - reflexivity.
  - reflexivity.
  - apply Forall_cons; [|apply Forall_nil].
    exists 1%Z. split; [reflexivity|]. intros i Hi.
    destruct i as [|i]; [|cbn in Hi; lia].
    eexists _, _. split; reflexivity.
  - left. reflexivity.
Defined.

(** X2.  The body reader fails on the first record it cannot read and with
    that record's fault: when the records before it are acceptable and its
    position is missing (KeyError), cannot be sliced, or is a list of other
    than six entries (TypeError), that fault is the reader's outcome, and
    the records after it are never looked at. *)
Theorem body_reader_first_fault
    (FHS FPOS : Type) (load_frame : FHS -> FPOS -> Z -> result pyval)
    (self : source FHS FPOS) (frame : pyval)
    (good : list pyval) (bad : pyval) (rest : list pyval) (e : exn) :
  outcome (BodyReader.frame_of load_frame self) = Ok frame ->
  items_of "bodies" frame = Ok (good ++ bad :: rest) ->
  Forall acceptable_body good ->
  body_defect bad e ->
  outcome (BodyReader.body_reader load_frame self) = Raise e /\
  forall frame' rest',
    items_of "bodies" frame' = Ok (good ++ bad :: rest') ->
    BodyReader.output frame' = BodyReader.output frame.
Proof.
  intros Hframe Hitems Hgood Hbad. split.
  - rewrite body_reader_outcome, Hframe, (body_output_items _ _ Hitems).
    rewrite outcome_bind, for_each_app, outcome_bind.
    destruct (body_loop good BodyReader.init eq_refl)
      as [(cs & _ & Hv')|(e' & _ & Hno)].
    + rewrite Hv'. cbn [for_each].
      now rewrite outcome_bind, (body_defect_raises _ _ _ Hbad).
    + destruct Hno. apply Forall_forall. intros body Hin.
      rewrite Forall_forall in Hgood. destruct (Hgood body Hin) as (x & c & H).
      exists c. apply center_ok_iff. now exists x.
  - intros frame' rest' Hitems'.
    rewrite (body_output_items _ _ Hitems), (body_output_items _ _ Hitems').
    f_equal. apply for_each_stops. intros s1. exists e.
    now apply body_defect_raises.
Qed.

Lemma body_reader_first_fault_witness :
  outcome (BodyReader.body_reader
             (Sample.loader [Sample2.frame_bad_body [PyNone]])
             (Sample.self None)) = Raise (KeyError "position_").
Proof.
  refine (proj1 (body_reader_first_fault unit unit
                   (Sample.loader [Sample2.frame_bad_body [PyNone]])
                   (Sample.self None) (Sample2.frame_bad_body [PyNone])
                   [Sample.body [Sample.f 1 0; Sample.f 1 0; Sample.f 1 0]]
                   Sample2.body_no_position [PyNone] (KeyError "position_")
                   _ _ _ _)).
  - reflexivity.
  - reflexivity.
  - apply Forall_cons; [|apply Forall_nil].
    eexists _, _. repeat split; reflexivity.
  - left. reflexivity.
Defined.

(** ** What the record collection may be *)

(** X3.  The readers iterate the frame's collection as Python iterates it.
    An empty list, dictionary or string gives the empty output and no slice
    is taken.  A non-empty dictionary or string makes the reader raise
    TypeError, because what is iterated are then its keys or characters,
    strings, which cannot be subscripted with a field name; a collection
    that is None or a number raises TypeError as well. *)
Theorem reader_collection_kinds (frame : pyval) :
  (forall c, getitem frame "fibers" = Ok c ->
     match c with
     | PyList [] | PyDict [] | PyStr EmptyString =>
         FiberReader.output frame = ([], Ok {| Points := []; Lines := [] |})
     | PyList (_ :: _) => True
     | _ => outcome (FiberReader.output frame) = Raise TypeError
     end) /\
  (forall c, getitem frame "bodies" = Ok c ->
     match c with
     | PyList [] | PyDict [] | PyStr EmptyString =>
         BodyReader.output frame = ([], Ok [])
     | PyList (_ :: _) => True
     | _ => outcome (BodyReader.output frame) = Raise TypeError
     end).
Proof.
  split; intros c H.
  - unfold FiberReader.output, FiberReader.build. rewrite H.
    destruct c as [| | |s|l|d]; try reflexivity.
    + now destruct s.
    + now destruct l.
    + destruct d as [|[k v] d]; reflexivity.
  - unfold BodyReader.output, BodyReader.build. rewrite H.
    destruct c as [| | |s|l|d]; try reflexivity.
    + now destruct s.
    + now destruct l.
    + destruct d as [|[k v] d]; reflexivity.
Qed.

Lemma reader_collection_kinds_witness :
  outcome (FiberReader.output Sample2.frame_keyed) = Raise TypeError /\
  outcome (BodyReader.output Sample2.frame_keyed) = Raise TypeError.
Proof.
  split.
  - apply (proj1 (reader_collection_kinds Sample2.frame_keyed)
             (PyDict [("first", Sample.fiber 0 [])])).
    reflexivity.
  - apply (proj2 (reader_collection_kinds Sample2.frame_keyed) (PyStr "none")).
    reflexivity.
Defined.

(** ** Cells of any run that goes through *)

Lemma cells_from_sizes items recs :
  fiber_records items recs ->
  forall s,
  Forall2 (fun fib c => exists n, getitem fib "n_nodes_" = Ok (PyInt n) /\
                                  npts c = n /\
                                  List.length (ids c) = Z.to_nat n)
          items (cells_from s recs).
Proof.
  induction 1 as [|fib [n ps] items recs [Hn Hps] _ IH]; intros s; constructor.
  - exists n. cbn in *. repeat split; try assumption.
    rewrite length_seq, <- (Forall2_length Hps), length_map. apply length_seq.
  - apply IH.
Qed.

(** X4.  In every output the fiber reader produces, cell [k] is announced
    with exactly the node count stored in record [k] and lists as many ids
    as [range] of that count yields: a record with a zero or negative count
    still gets its cell, announced with that count and holding no id. *)
Theorem fiber_reader_cell_sizes
    (FHS FPOS : Type) (load_frame : FHS -> FPOS -> Z -> result pyval)
    (self : source FHS FPOS) (frame : pyval) (items : list pyval)
    (out : vtkPolyData) :
  outcome (FiberReader.frame_of load_frame self) = Ok frame ->
  items_of "fibers" frame = Ok items ->
  outcome (FiberReader.fiber_reader load_frame self) = Ok out ->
  Forall2 (fun fib c => exists n, getitem fib "n_nodes_" = Ok (PyInt n) /\
                                  npts c = n /\
                                  List.length (ids c) = Z.to_nat n)
          items (Lines out).
Proof.
  intros Hframe Hitems Hout. apply fiber_reader_ok in Hout.
  destruct Hout as (frame' & items' & recs & Hframe' & Hitems' & Hrecs & ->).
  rewrite Hframe in Hframe'. injection Hframe' as <-.
  rewrite Hitems in Hitems'. injection Hitems' as <-.
  now apply cells_from_sizes.
Qed.

Lemma fiber_reader_cell_sizes_witness :
  Forall2 (fun fib c => exists n, getitem fib "n_nodes_" = Ok (PyInt n) /\
                                  npts c = n /\
                                  List.length (ids c) = Z.to_nat n)
          [Sample2.fiber_negative] [{| npts := -2; ids := [] |}].
Proof.
  apply (fiber_reader_cell_sizes unit unit
           (Sample.loader [Sample.frame [Sample2.fiber_negative] []])
           (Sample.self None)
           (Sample.frame [Sample2.fiber_negative] [])
           [Sample2.fiber_negative]
           {| Points := []; Lines := [{| npts := -2; ids := [] |}] |});
    reflexivity.
Defined.

(** ** Frames put together *)

Lemma seq_add_map k : forall len s, map (Nat.add k) (seq s len) = seq (k + s) len.
Proof.
  induction len as [|len IH]; intros s; [reflexivity|].
  cbn [seq map]. rewrite IH. f_equal. f_equal. lia.
Qed.

Lemma cells_from_shift k : forall recs s,
  cells_from (k + s) recs = map (shift_cell k) (cells_from s recs).
Proof.
  induction recs as [|[n ps] recs IH]; intros s; [reflexivity|].
  cbn [cells_from map]. unfold shift_cell at 1. cbn [npts ids].
  rewrite seq_add_map. f_equal. rewrite <- IH. f_equal. lia.
Qed.

Lemma points_of_app r1 r2 : points_of (r1 ++ r2) = points_of r1 ++ points_of r2.
Proof. unfold points_of. now rewrite map_app, concat_app, map_app. Qed.

Lemma cells_from_app : forall r1 r2 s,
  cells_from s (r1 ++ r2) =
  cells_from s r1 ++ cells_from (s + List.length (points_of r1)) r2.
Proof.
  induction r1 as [|[n ps] r1 IH]; intros r2 s.
  - cbn. now rewrite Nat.add_0_r.
  - cbn [app cells_from]. rewrite IH, length_points_of_cons. cbn [app].
    do 3 f_equal. lia.
Qed.

Lemma fiber_records_unique items recs recs' :
  fiber_records items recs -> fiber_records items recs' -> recs = recs'.
Proof.
  intros H. revert recs'.
  induction H as [|fib [n ps] items recs Hr _ IH]; intros recs' H';
    inversion H' as [|? [n' ps'] ? recs'' Hr' Hrest]; subst; [reflexivity|].
  cbn in Hr, Hr'. destruct (reads_fiber_unique _ _ _ _ _ Hr Hr') as [-> ->].
  f_equal. now apply IH.
Qed.

Lemma fiber_output_of_records frame items recs :
  items_of "fibers" frame = Ok items ->
  fiber_records items recs ->
  outcome (FiberReader.output frame) =
  Ok {| Points := points_of recs; Lines := cells_from 0 recs |}.
Proof.
  intros Hitems Hrecs.
  destruct (fiber_output_cases frame)
    as [(items' & recs' & Hi & Hr & Hout)|(e & _ & [Hi|(items' & Hi & Hno)])].
  - rewrite Hitems in Hi. injection Hi as <-.
    now rewrite (fiber_records_unique _ _ _ Hrecs Hr).
  - congruence.
  - rewrite Hitems in Hi. injection Hi as <-. destruct Hno.
    apply (Forall2_Forall_l _ _ _) in Hrecs.
    apply Forall_forall. intros fib Hin. rewrite Forall_forall in Hrecs.
    destruct (Hrecs fib Hin) as [[n ps] H]. now exists n, ps.
Qed.

Lemma fiber_records_of_output frame items out :
  items_of "fibers" frame = Ok items ->
  outcome (FiberReader.output frame) = Ok out ->
  exists recs,
    fiber_records items recs /\
    out = {| Points := points_of recs; Lines := cells_from 0 recs |}.
Proof.
  intros Hitems Hout.
  destruct (fiber_output_cases frame)
    as [(items' & recs & Hi & Hr & Hout')|(e & Hout' & _)]; [|congruence].
  rewrite Hitems in Hi. injection Hi as <-. exists recs. split; [assumption|].
  congruence.
Qed.

(** X5.  The fiber reader's output is put together record by record: for a
    frame whose fibers are those of one frame followed by those of another,
    both readable, the points are the first frame's points followed by the
    second's, and the cells are the first frame's cells followed by the
    second's with every id moved up by the number of points of the first. *)
Theorem fiber_output_app
    (frame1 frame2 frame : pyval) (items1 items2 : list pyval)
    (out1 out2 : vtkPolyData) :
  items_of "fibers" frame1 = Ok items1 ->
  items_of "fibers" frame2 = Ok items2 ->
  items_of "fibers" frame = Ok (items1 ++ items2) ->
  outcome (FiberReader.output frame1) = Ok out1 ->
  outcome (FiberReader.output frame2) = Ok out2 ->
  outcome (FiberReader.output frame) =
  Ok {| Points := Points out1 ++ Points out2;
        Lines := Lines out1 ++
                 map (shift_cell (List.length (Points out1))) (Lines out2) |}.
Proof.
  intros H1 H2 H Hout1 Hout2.
  destruct (fiber_records_of_output _ _ _ H1 Hout1) as (r1 & Hr1 & ->).
  destruct (fiber_records_of_output _ _ _ H2 Hout2) as (r2 & Hr2 & ->).
  rewrite (fiber_output_of_records frame _ (r1 ++ r2) H).
  - cbn [Points Lines].
    rewrite points_of_app, cells_from_app, <- cells_from_shift.
    now rewrite Nat.add_0_r.
  - now apply Forall2_app.
Qed.

Lemma fiber_output_app_witness :
  exists out1 out2,
    outcome (FiberReader.output Sample2.frame_first) = Ok out1 /\
    outcome (FiberReader.output Sample2.frame_second) = Ok out2 /\
    outcome (FiberReader.output Sample.frame0) =
    Ok {| Points := Points out1 ++ Points out2;
          Lines := Lines out1 ++
                   map (shift_cell (List.length (Points out1))) (Lines out2) |}.
Proof.
  eexists _, _. split; [vm_compute; reflexivity|].
  split; [vm_compute; reflexivity|].
  apply (fiber_output_app Sample2.frame_first Sample2.frame_second Sample.frame0
           [Sample.fiber 2 [Sample.f 1 0; Sample.f 2 0; Sample.f 3 0;
                            Sample.f 4 0; Sample.f 5 0; Sample.f 6 0]]
           [Sample.fiber 1 [Sample.f 7 0; Sample.f 8 0; Sample.f 9 0]]);
    vm_compute; reflexivity.
Defined.

Lemma body_centers_unique items cs cs' :
  body_centers items cs -> body_centers items cs' -> cs = cs'.
Proof.
  intros H. revert cs'.
  induction H as [|body c items cs Hc _ IH]; intros cs' H';
    inversion H' as [|? c' ? cs'' Hc' Hrest]; subst; [reflexivity|].
  rewrite Hc in Hc'. injection Hc' as <-. f_equal. now apply IH.
Qed.

Lemma body_output_of_centers frame items cs :
  items_of "bodies" frame = Ok items ->
  body_centers items cs ->
  outcome (BodyReader.output frame) = Ok (blocks_of cs).
Proof.
  intros Hitems Hcs.
  destruct (body_output_cases frame)
    as [(items' & cs' & Hi & Hc & Hout)|(e & _ & [Hi|(items' & Hi & Hno)])].
  - rewrite Hitems in Hi. injection Hi as <-.
    now rewrite (body_centers_unique _ _ _ Hcs Hc).
  - congruence.
  - rewrite Hitems in Hi. injection Hi as <-. destruct Hno.
    now apply (Forall2_Forall_l _ _ _ Hcs).
Qed.

Lemma body_centers_of_output frame items out :
  items_of "bodies" frame = Ok items ->
  outcome (BodyReader.output frame) = Ok out ->
  exists cs, body_centers items cs /\ out = blocks_of cs.
Proof.
  intros Hitems Hout.
  destruct (body_output_cases frame)
    as [(items' & cs & Hi & Hc & Hout')|(e & Hout' & _)]; [|congruence].
  rewrite Hitems in Hi. injection Hi as <-. exists cs. split; [assumption|].
  congruence.
Qed.

(** X6.  The body reader's dataset is put together record by record: for a
    frame whose bodies are those of one frame followed by those of another,
    both readable, the blocks are the first frame's blocks followed by the
    second's, each sphere unchanged. *)
Theorem body_output_app
    (frame1 frame2 frame : pyval) (items1 items2 : list pyval)
    (out1 out2 : vtkMultiBlockDataSet) :
  items_of "bodies" frame1 = Ok items1 ->
  items_of "bodies" frame2 = Ok items2 ->
  items_of "bodies" frame = Ok (items1 ++ items2) ->
  outcome (BodyReader.output frame1) = Ok out1 ->
  outcome (BodyReader.output frame2) = Ok out2 ->
  outcome (BodyReader.output frame) = Ok (out1 ++ out2).
Proof.
  intros H1 H2 H Hout1 Hout2.
  destruct (body_centers_of_output _ _ _ H1 Hout1) as (c1 & Hc1 & ->).
  destruct (body_centers_of_output _ _ _ H2 Hout2) as (c2 & Hc2 & ->).
  rewrite (body_output_of_centers frame _ (c1 ++ c2) H).
  - unfold blocks_of. now rewrite map_app.
  - now apply Forall2_app.
Qed.

Lemma body_output_app_witness :
  exists out1 out2,
    outcome (BodyReader.output Sample2.frame_first) = Ok out1 /\
    outcome (BodyReader.output Sample2.frame_second) = Ok out2 /\
    outcome (BodyReader.output Sample.frame0) = Ok (out1 ++ out2).
Proof.
  eexists _, _. split; [vm_compute; reflexivity|].
  split; [vm_compute; reflexivity|].
  apply (body_output_app Sample2.frame_first Sample2.frame_second Sample.frame0
           [Sample.body [Sample.f 1 0; Sample.f 1 0; Sample.f 1 0]]
           [Sample.body [Sample.f 2 0; Sample.f 2 0; PyInt 5]]);
    vm_compute; reflexivity.
Defined.

(** ** The header is skipped, not read *)

Lemma outcome_for_each_rel {A A' S} (body : S -> A -> M S) (body' : S -> A' -> M S)
    xs xs' :
  Forall2 (fun x x' => forall s, outcome (body s x) = outcome (body' s x')) xs xs' ->
  forall s, outcome (for_each body xs s) = outcome (for_each body' xs' s).
Proof.
  induction 1 as [|x x' xs xs' Hx _ IH]; intros s; [reflexivity|].
  cbn [for_each]. rewrite !outcome_bind, Hx.
  destruct (outcome (body' s x')); [apply IH|reflexivity].
Qed.

Lemma Forall2_diag {A} (R : A -> A -> Prop) xs :
  (forall x, In x xs -> R x x) -> Forall2 R xs xs.
Proof.
  induction xs as [|x xs IH]; intros H; constructor.
  - apply H. now left.
  - apply IH. intros y Hy. apply H. now right.
Qed.

Lemma node_past_header fib fib' j :
  same_past_header "x_" fib fib' ->
  node fib (Z.of_nat j) = node fib' (Z.of_nat j).
Proof.
  intros (x & x' & Hx & Hx' & Hs).
  rewrite (node_of_list _ _ _ Hx), (node_of_list _ _ _ Hx').
  replace (3 + 3 * j) with (3 * j + 3) by lia.
  now rewrite <- !skipn_skipn, Hs.
Qed.

Lemma fiber_step_past_header fib fib' v :
  getitem fib "n_nodes_" = getitem fib' "n_nodes_" ->
  same_past_header "x_" fib fib' ->
  outcome (FiberReader.fiber_step v fib) = outcome (FiberReader.fiber_step v fib').
Proof.
  intros Hn Hx. unfold FiberReader.fiber_step. rewrite <- Hn.
  destruct (getitem fib "n_nodes_") as [nn|e]; [|reflexivity].
  rewrite !(bind_lift_ok _ _ _ eq_refl).
  destruct nn as [|n| | | |]; try reflexivity.
  unfold InsertNextCell, SetNumberOfIds, range. cbn [as_id].
  rewrite !(bind_lift_ok _ _ _ eq_refl).
  apply outcome_for_each_rel. apply Forall2_diag. intros i Hi s.
  apply in_map_iff in Hi. destruct Hi as (j & <- & _).
  now rewrite !point_step_outcome, (node_past_header _ _ _ Hx).
Qed.

(** X7.  The fiber reader never reads the three header entries of a buffer:
    two frames whose fiber records carry the same node counts and buffers
    that are equal from entry 3 on end alike, with the same output or the
    same fault, whatever stands in entries 0, 1 and 2. *)
Theorem fiber_header_not_read
    (frame frame' : pyval) (items items' : list pyval) :
  items_of "fibers" frame = Ok items ->
  items_of "fibers" frame' = Ok items' ->
  Forall2 (fun fib fib' => getitem fib "n_nodes_" = getitem fib' "n_nodes_" /\
                           same_past_header "x_" fib fib') items items' ->
  outcome (FiberReader.output frame) = outcome (FiberReader.output frame').
Proof.
  intros Hi Hi' Hrel.
  rewrite (fiber_output_items _ _ Hi), (fiber_output_items _ _ Hi'), !outcome_bind.
  rewrite (outcome_for_each_rel FiberReader.fiber_step FiberReader.fiber_step
             items items'); [reflexivity|].
  clear Hi Hi'.
  induction Hrel as [|fib fib' items items' [Hn Hx] _ IH]; constructor;
    [|exact IH].
  intros s. now apply fiber_step_past_header.
Qed.

Lemma fiber_header_not_read_witness :
  outcome (FiberReader.output Sample2.frame_second) =
  outcome (FiberReader.output Sample2.frame_other_header).
Proof.
  apply (fiber_header_not_read Sample2.frame_second Sample2.frame_other_header
           [Sample.fiber 1 [Sample.f 7 0; Sample.f 8 0; Sample.f 9 0]]
           [Sample2.fiber_other_header]).
  - reflexivity.
  - reflexivity.
  - apply Forall2_cons; [|apply Forall2_nil].
    split; [reflexivity|]. eexists _, _. repeat split; reflexivity.
Defined.

Lemma center_of_list body x :
  getitem body "position_" = Ok (PyList x) ->
  center body = as_double3 (PyList (skipn 3 x)).
Proof.
  intros Hx. unfold center. rewrite Hx. cbn.
  change 3%Z with (Z.of_nat 3). now rewrite slice_list_from.
Qed.

(** X8.  The body reader never reads the three header entries of a
    position: two frames whose body records carry positions that are equal
    from entry 3 on end alike, with the same dataset or the same fault. *)
Theorem body_header_not_read
    (frame frame' : pyval) (items items' : list pyval) :
  items_of "bodies" frame = Ok items ->
  items_of "bodies" frame' = Ok items' ->
  Forall2 (same_past_header "position_") items items' ->
  outcome (BodyReader.output frame) = outcome (BodyReader.output frame').
Proof.
  intros Hi Hi' Hrel.
  rewrite (body_output_items _ _ Hi), (body_output_items _ _ Hi'), !outcome_bind.
  rewrite (outcome_for_each_rel BodyReader.body_step BodyReader.body_step
             items items'); [reflexivity|].
  clear Hi Hi'.
  induction Hrel as [|body body' items items' (x & x' & Hx & Hx' & Hs) _ IH];
    constructor; [|exact IH].
  intros s. rewrite !body_step_outcome.
  now rewrite (center_of_list _ _ Hx), (center_of_list _ _ Hx'), Hs.
Qed.

Lemma body_header_not_read_witness :
  outcome (BodyReader.output Sample2.frame_second) =
  outcome (BodyReader.output Sample2.frame_other_header).
Proof.
  apply (body_header_not_read Sample2.frame_second Sample2.frame_other_header
           [Sample.body [Sample.f 2 0; Sample.f 2 0; PyInt 5]]
           [Sample2.body_other_header]).
  - reflexivity.
  - reflexivity.
  - apply Forall2_cons; [|apply Forall2_nil].
    eexists _, _. repeat split; reflexivity.
Defined.

(** ** The spheres *)

(** X9.  In every dataset the body reader produces no block is left empty,
    and all spheres are alike but for their centre: radius 0.5 and 32 by 32
    resolution, whatever the records hold. *)
Theorem body_reader_spheres_uniform
    (FHS FPOS : Type) (load_frame : FHS -> FPOS -> Z -> result pyval)
    (self : source FHS FPOS) (out : vtkMultiBlockDataSet) :
  outcome (BodyReader.body_reader load_frame self) = Ok out ->
  Forall (fun block => exists s, block = Some s /\
                                 Radius s = S754_finite false 4503599627370496 (-53) /\
                                 ThetaResolution s = 32%Z /\
                                 PhiResolution s = 32%Z) out.
Proof.
  rewrite body_reader_outcome.
  destruct (outcome (BodyReader.frame_of load_frame self)) as [frame|e];
    [|discriminate].
  intros Hout.
  destruct (body_output_cases frame)
    as [(items & cs & _ & _ & Hout')|(e & Hout' & _)]; [|congruence].
  rewrite Hout in Hout'. injection Hout' as ->.
  apply Forall_forall. intros block Hin. unfold blocks_of in Hin.
  apply in_map_iff in Hin. destruct Hin as (c & <- & _).
  exists (sphere c). now repeat split.
Qed.

Lemma body_reader_spheres_uniform_witness :
  exists out,
    outcome (BodyReader.body_reader (Sample.loader [Sample.frame0])
                                    (Sample.self None)) = Ok out /\
    Forall (fun block => exists s, block = Some s /\
                                   Radius s = S754_finite false 4503599627370496 (-53) /\
                                   ThetaResolution s = 32%Z /\
                                   PhiResolution s = 32%Z) out.
Proof.
  eexists. split; [vm_compute; reflexivity|].
  apply (body_reader_spheres_uniform unit unit (Sample.loader [Sample.frame0])
           (Sample.self None)).
  vm_compute. reflexivity.
Defined.

(** ** The requested time *)

(** X10.  A requested time step that is not a finite number stops both
    readers before anything is loaded: for a NaN they raise ValueError, for
    an infinity OverflowError, and the loader is never called. *)
Theorem readers_reject_nonfinite_time
    (FHS FPOS : Type) (load_frame : FHS -> FPOS -> Z -> result pyval)
    (self : source FHS FPOS) (t : spec_float) (e : exn) :
  UPDATE_TIME_STEP (GetOutputInformation self 0) = Some t ->
  (t = S754_nan /\ e = ValueError) \/
  (exists s, t = S754_infinity s /\ e = OverflowError) ->
  outcome (FiberReader.fiber_reader load_frame self) = Raise e /\
  outcome (BodyReader.body_reader load_frame self) = Raise e /\
  load_calls (log_of (FiberReader.fiber_reader load_frame self)) = [] /\
  load_calls (log_of (BodyReader.body_reader load_frame self)) = [].
Proof.
  intros Ht Hkind.
  assert (Hint : int (FiberReader.time (GetOutputInformation self 0)) = Raise e).
  { unfold FiberReader.time, Has_UPDATE_TIME_STEP, Get_UPDATE_TIME_STEP.
    rewrite Ht. now destruct Hkind as [[-> ->]|(s & -> & ->)]. }
  assert (Hint' : int (BodyReader.time (GetOutputInformation self 0)) = Raise e)
    by exact Hint.
  rewrite fiber_reader_outcome, fiber_frame_of_outcome, Hint.
  rewrite body_reader_outcome, body_frame_of_outcome, Hint'.
  rewrite fiber_reader_calls, fiber_frame_of_calls, Hint.
  rewrite body_reader_calls, body_frame_of_calls, Hint'.
  now repeat split.
Qed.

Lemma readers_reject_nonfinite_time_witness :
  outcome (FiberReader.fiber_reader (Sample.loader [Sample.frame0])
                                    (Sample.self (Some S754_nan))) = Raise ValueError /\
  outcome (BodyReader.body_reader (Sample.loader [Sample.frame0])
                                  (Sample.self (Some S754_nan))) = Raise ValueError /\
  load_calls (log_of (FiberReader.fiber_reader (Sample.loader [Sample.frame0])
                                               (Sample.self (Some S754_nan)))) = [] /\
  load_calls (log_of (BodyReader.body_reader (Sample.loader [Sample.frame0])
                                             (Sample.self (Some S754_nan)))) = [].
Proof.
  apply (readers_reject_nonfinite_time unit unit (Sample.loader [Sample.frame0])
           (Sample.self (Some S754_nan)) S754_nan ValueError).
  - reflexivity.
  - left. split; reflexivity.
Defined.

(** X11.  The frame index is the requested time step cut off toward zero,
    never rounded: for a finite time step of magnitude m * 2^e the index [k]
    handed to the loader by both readers has the sign of the time step, and
    its magnitude is m * 2^e when e >= 0 and otherwise the whole number
    with |k| * 2^-e <= m < (|k| + 1) * 2^-e. *)
Theorem time_index_truncates
    (FHS FPOS : Type) (load_frame : FHS -> FPOS -> Z -> result pyval)
    (self : source FHS FPOS) (s : bool) (m : positive) (e : Z) :
  UPDATE_TIME_STEP (GetOutputInformation self 0) = Some (S754_finite s m e) ->
  exists k,
    load_calls (log_of (FiberReader.fiber_reader load_frame self)) = [k] /\
    load_calls (log_of (BodyReader.body_reader load_frame self)) = [k] /\
    (if s then k <= 0 else 0 <= k)%Z /\
    ((0 <= e)%Z -> Z.abs k = (Z.pos m * 2 ^ e)%Z) /\
    ((e < 0)%Z ->
       (Z.abs k * 2 ^ (- e) <= Z.pos m < (Z.abs k + 1) * 2 ^ (- e))%Z).
Proof.
  intros Ht.
  set (mag := Z.shiftl (Z.pos m) e).
  assert (Hint : int (FiberReader.time (GetOutputInformation self 0)) =
                 Ok (if s then (- mag)%Z else mag)).
  { unfold FiberReader.time, Has_UPDATE_TIME_STEP, Get_UPDATE_TIME_STEP.
    now rewrite Ht. }
  assert (Hint' : int (BodyReader.time (GetOutputInformation self 0)) =
                  Ok (if s then (- mag)%Z else mag)) by exact Hint.
  assert (Hmag : (0 <= mag)%Z) by (apply Z.shiftl_nonneg; lia).
  exists (if s then (- mag)%Z else mag).
  rewrite fiber_reader_calls, fiber_frame_of_calls, Hint.
  rewrite body_reader_calls, body_frame_of_calls, Hint'.
  assert (Habs : Z.abs (if s then (- mag)%Z else mag) = mag)
    by (destruct s; lia).
  rewrite Habs. repeat split.
  - destruct s; lia.
  - intros He. unfold mag. now rewrite Z.shiftl_mul_pow2.
  - unfold mag. rewrite Z.shiftl_div_pow2 by lia.
    rewrite Z.mul_comm. apply Z.mul_div_le. apply Z.pow_pos_nonneg; lia.
  - unfold mag. rewrite Z.shiftl_div_pow2 by lia.
    rewrite Z.mul_comm. apply Z.mul_succ_div_gt. apply Z.pow_pos_nonneg; lia.
Qed.

Lemma time_index_truncates_witness :
  exists k,
    load_calls (log_of (FiberReader.fiber_reader
                          (Sample.loader [PyNone; PyNone; Sample.frame0])
                          (Sample.self (Some Sample.t2_5)))) = [k] /\
    load_calls (log_of (BodyReader.body_reader
                          (Sample.loader [PyNone; PyNone; Sample.frame0])
                          (Sample.self (Some Sample.t2_5)))) = [k] /\
    (0 <= k)%Z /\
    ((0 <= -1)%Z -> Z.abs k = (5 * 2 ^ (-1))%Z) /\
    ((-1 < 0)%Z -> (Z.abs k * 2 ^ (- -1) <= 5 < (Z.abs k + 1) * 2 ^ (- -1))%Z).
Proof.
  apply (time_index_truncates unit unit
           (Sample.loader [PyNone; PyNone; Sample.frame0])
           (Sample.self (Some Sample.t2_5)) false 5 (-1)).
  reflexivity.
Defined.

(** ** One slice per point, one per body *)

Lemma for_each_track {A S} (T : S -> list event -> S -> Prop) (body : S -> A -> M S) :
  (forall s, T s [] s) ->
  (forall s l1 s1 l2 s2, T s l1 s1 -> T s1 l2 s2 -> T s (l1 ++ l2) s2) ->
  (forall s x s1, outcome (body s x) = Ok s1 -> T s (log_of (body s x)) s1) ->
  forall xs s s',
    outcome (for_each body xs s) = Ok s' -> T s (log_of (for_each body xs s)) s'.
Proof.
  intros Hrefl Htrans Hstep. induction xs as [|x xs IH]; intros s s' H.
  - cbn in H. injection H as <-. apply Hrefl.
  - cbn [for_each] in *. rewrite outcome_bind in H. rewrite log_bind.
    destruct (outcome (body s x)) as [s1|e] eqn:E; [|discriminate].
    apply (Htrans s _ s1); [now apply Hstep|now apply IH].
Qed.

Lemma fiber_stretch_refl v : fiber_stretch v [] v.
Proof. repeat split; cbn; auto. Qed.

Lemma fiber_stretch_trans v l1 v1 l2 v2 :
  fiber_stretch v l1 v1 -> fiber_stretch v1 l2 v2 -> fiber_stretch v (l1 ++ l2) v2.
Proof.
  intros (Ha & Hb & Hc) (Ha' & Hb' & Hc'). repeat split.
  - now rewrite forallb_app, Ha, Ha'.
  - rewrite length_app. lia.
  - auto.
Qed.

Lemma point_step_stretch fib v i v' :
  outcome (FiberReader.point_step fib v i) = Ok v' ->
  fiber_stretch v (log_of (FiberReader.point_step fib v i)) v'.
Proof.
  unfold FiberReader.point_step, InsertPoint. cbv zeta.
  destruct (getitem fib "x_") as [x|e]; [|discriminate].
  destruct x as [| | |s|l|]; try discriminate.
  cbn. destruct (as_double3 _) as [p|e]; [|discriminate].
  cbn. intros H. injection H as <-. repeat split; cbn.
  intros Hl. now rewrite <- Hl, set_slot_at_length, length_app.
Qed.

Lemma fiber_step_stretch v fib v' :
  outcome (FiberReader.fiber_step v fib) = Ok v' ->
  fiber_stretch v (log_of (FiberReader.fiber_step v fib)) v'.
Proof.
  unfold FiberReader.fiber_step.
  destruct (getitem fib "n_nodes_") as [nn|e]; [|discriminate].
  rewrite (bind_lift_ok _ _ _ eq_refl).
  destruct nn as [|n| | | |]; try discriminate.
  unfold InsertNextCell, SetNumberOfIds, range. cbn [as_id].
  rewrite !(bind_lift_ok _ _ _ eq_refl). intros H.
  apply (for_each_track fiber_stretch) in H.
  - exact H.
  - apply fiber_stretch_refl.
  - apply fiber_stretch_trans.
  - intros s i s1. apply point_step_stretch.
Qed.

Lemma fiber_frame_of_log FHS FPOS lf (self : source FHS FPOS) frame :
  outcome (FiberReader.frame_of lf self) = Ok frame ->
  exists k, log_of (FiberReader.frame_of lf self) = [EvLoadFrame k].
Proof.
  unfold FiberReader.frame_of. cbv zeta.
  destruct (int _) as [k|e]; [|discriminate].
  intros _. exists k. cbn. now destruct (lf (fhs self) (fpos self) k).
Qed.

Lemma body_frame_of_log FHS FPOS lf (self : source FHS FPOS) frame :
  outcome (BodyReader.frame_of lf self) = Ok frame ->
  exists k, log_of (BodyReader.frame_of lf self) = [EvLoadFrame k].
Proof.
  unfold BodyReader.frame_of. cbv zeta.
  destruct (int _) as [k|e]; [|discriminate].
  intros _. exists k. cbn. now destruct (lf (fhs self) (fpos self) k).
Qed.

(** X12.  A run of the fiber reader that goes through logs the one call of
    the loader and then nothing but slices, exactly one for every point of
    the output: the coordinates of each node are fetched once, and nothing
    else is taken from a buffer. *)
Theorem fiber_reader_one_slice_per_point
    (FHS FPOS : Type) (load_frame : FHS -> FPOS -> Z -> result pyval)
    (self : source FHS FPOS) (out : vtkPolyData) :
  outcome (FiberReader.fiber_reader load_frame self) = Ok out ->
  exists k slices,
    log_of (FiberReader.fiber_reader load_frame self) = EvLoadFrame k :: slices /\
    forallb is_slice slices = true /\
    List.length slices = List.length (Points out).
Proof.
  intros Hout. unfold FiberReader.fiber_reader in *.
  rewrite outcome_bind in Hout. rewrite log_bind.
  destruct (outcome (FiberReader.frame_of load_frame self)) as [frame|e] eqn:Ef;
    [|discriminate].
  destruct (fiber_frame_of_log _ _ _ _ _ Ef) as [k ->].
  exists k, (log_of (FiberReader.output frame)). split; [reflexivity|].
  unfold FiberReader.output, FiberReader.build in *.
  destruct (getitem frame "fibers") as [c|e]; [|discriminate].
  rewrite (bind_lift_ok _ _ _ eq_refl) in *.
  destruct (iter c) as [items|e]; [|discriminate].
  rewrite (bind_lift_ok _ _ _ eq_refl) in *.
  rewrite outcome_bind in Hout. rewrite log_bind.
  destruct (outcome (for_each FiberReader.fiber_step items FiberReader.init))
    as [v|e] eqn:Ev; [|discriminate].
  cbn in Hout. injection Hout as <-. cbn [log_of ret fst Points]. rewrite app_nil_r.
  apply (for_each_track fiber_stretch) in Ev.
  - destruct Ev as (Hs & Ho & Hl). split; [assumption|].
    cbn in Ho. rewrite Hl by reflexivity. now rewrite Ho.
  - apply fiber_stretch_refl.
  - apply fiber_stretch_trans.
  - intros s fib s1. apply fiber_step_stretch.
Qed.

Lemma fiber_reader_one_slice_per_point_witness :
  exists out k slices,
    outcome (FiberReader.fiber_reader (Sample.loader [Sample.frame0])
                                      (Sample.self None)) = Ok out /\
    log_of (FiberReader.fiber_reader (Sample.loader [Sample.frame0])
                                     (Sample.self None)) = EvLoadFrame k :: slices /\
    forallb is_slice slices = true /\
    List.length slices = List.length (Points out).
Proof.
  eexists.
  assert (H : outcome (FiberReader.fiber_reader (Sample.loader [Sample.frame0])
                                                (Sample.self None)) = Ok _)
    by (vm_compute; reflexivity).
  destruct (fiber_reader_one_slice_per_point unit unit
              (Sample.loader [Sample.frame0]) (Sample.self None) _ H)
    as (k & slices & Hlog & Hs & Hl).
  exists k, slices. repeat split; assumption.
Defined.

Lemma body_stretch_refl v : body_stretch v [] v.
Proof. repeat split; cbn; auto. Qed.

Lemma body_stretch_trans v l1 v1 l2 v2 :
  body_stretch v l1 v1 -> body_stretch v1 l2 v2 -> body_stretch v (l1 ++ l2) v2.
Proof.
  intros (Ha & Hb & Hc) (Ha' & Hb' & Hc'). repeat split.
  - now rewrite forallb_app, Ha, Ha'.
  - rewrite length_app. lia.
  - auto.
Qed.

Lemma body_step_stretch v body v' :
  outcome (BodyReader.body_step v body) = Ok v' ->
  body_stretch v (log_of (BodyReader.body_step v body)) v'.
Proof.
  unfold BodyReader.body_step, BodyReader.sphere_of, SetCenter, SetBlock.
  destruct (getitem body "position_") as [x|e]; [|discriminate].
  destruct x as [| | |s|l|]; try discriminate.
  cbn. destruct (as_double3 _) as [p|e]; [|discriminate].
  cbn. intros H. injection H as <-. repeat split; cbn.
  intros Hl. now rewrite <- Hl, set_slot_at_length, length_app.
Qed.

(** X13.  A run of the body reader that goes through logs the one call of
    the loader and then nothing but slices, exactly one for every block of
    the dataset: each position is sliced once. *)
Theorem body_reader_one_slice_per_block
    (FHS FPOS : Type) (load_frame : FHS -> FPOS -> Z -> result pyval)
    (self : source FHS FPOS) (out : vtkMultiBlockDataSet) :
  outcome (BodyReader.body_reader load_frame self) = Ok out ->
  exists k slices,
    log_of (BodyReader.body_reader load_frame self) = EvLoadFrame k :: slices /\
    forallb is_slice slices = true /\
    List.length slices = List.length out.
Proof.
  intros Hout. unfold BodyReader.body_reader in *.
  rewrite outcome_bind in Hout. rewrite log_bind.
  destruct (outcome (BodyReader.frame_of load_frame self)) as [frame|e] eqn:Ef;
    [|discriminate].
  destruct (body_frame_of_log _ _ _ _ _ Ef) as [k ->].
  exists k, (log_of (BodyReader.output frame)). split; [reflexivity|].
  unfold BodyReader.output, BodyReader.build in *.
  destruct (getitem frame "bodies") as [c|e]; [|discriminate].
  rewrite (bind_lift_ok _ _ _ eq_refl) in *.
  destruct (iter c) as [items|e]; [|discriminate].
  rewrite (bind_lift_ok _ _ _ eq_refl) in *.
  rewrite outcome_bind in Hout. rewrite log_bind.
  destruct (outcome (for_each BodyReader.body_step items BodyReader.init))
    as [v|e] eqn:Ev; [|discriminate].
  cbn in Hout. injection Hout as <-. cbn [log_of ret fst]. rewrite app_nil_r.
  apply (for_each_track body_stretch) in Ev.
  - destruct Ev as (Hs & Ho & Hl). split; [assumption|].
    cbn in Ho. rewrite Hl by reflexivity. now rewrite Ho.
  - apply body_stretch_refl.
  - apply body_stretch_trans.
  - intros s body s1. apply body_step_stretch.
Qed.

Lemma body_reader_one_slice_per_block_witness :
  exists out k slices,
    outcome (BodyReader.body_reader (Sample.loader [Sample.frame0])
                                    (Sample.self None)) = Ok out /\
    log_of (BodyReader.body_reader (Sample.loader [Sample.frame0])
                                   (Sample.self None)) = EvLoadFrame k :: slices /\
    forallb is_slice slices = true /\
    List.length slices = List.length out.
Proof.
  eexists.
  assert (H : outcome (BodyReader.body_reader (Sample.loader [Sample.frame0])
                                              (Sample.self None)) = Ok _)
    by (vm_compute; reflexivity).
  destruct (body_reader_one_slice_per_block unit unit
              (Sample.loader [Sample.frame0]) (Sample.self None) _ H)
    as (k & slices & Hlog & Hs & Hl).
  exists k, slices. repeat split; assumption.
Defined.

(** ** Running the setup script again *)

Lemma init_paraview_session script_dir read (s0 : InitParaview.session) :
  let n := List.length (InitParaview.proxies s0) in
  InitParaview.init_paraview script_dir read s0 =
  {| InitParaview.proxies := InitParaview.proxies s0 ++ pipeline script_dir read n;
     InitParaview.active := Some (n + 3);
     InitParaview.shown := InitParaview.shown s0 ++ [n + 1; n + 3];
     InitParaview.display := InitParaview.display s0 ++ colours n |}.
Proof.
  destruct s0 as [ps act sh disp].
  lazy beta iota zeta delta
    [InitParaview.init_paraview InitParaview.create InitParaview.setattr
     InitParaview.Show InitParaview.SetDisplayProperties
     InitParaview.proxies InitParaview.active InitParaview.shown
     InitParaview.display].
  rewrite !update_at_length.
  lazy beta iota delta [InitParaview.set_property].
  rewrite !length_app. cbn [List.length].
  replace (List.length ps + 1 + 1) with (List.length ps + 2) by lia.
  replace (List.length ps + 2 + 1) with (List.length ps + 3) by lia.
  rewrite <- !app_assoc.
  reflexivity.
Qed.

(** X14.  The setup script is not idempotent and does not disturb what is
    there.  After one run the active source is the Smooth filter it made.
    Run a second time it leaves the first pipeline as it is and appends a
    second, wired to its own new sources (the second Tube is fed by the
    second "Fibers" source, the second Smooth by the second "Bodies"
    source), shows the two new filters and colours them. *)
Theorem init_paraview_twice (script_dir : string) (read : string -> string)
    (s0 : InitParaview.session) :
  let n := List.length (InitParaview.proxies s0) in
  let s1 := InitParaview.init_paraview script_dir read s0 in
  let s2 := InitParaview.init_paraview script_dir read s1 in
  InitParaview.active s1 = Some (n + 3) /\
  InitParaview.proxies s2 =
    InitParaview.proxies s0 ++ pipeline script_dir read n
                            ++ pipeline script_dir read (n + 4) /\
  InitParaview.active s2 = Some (n + 7) /\
  InitParaview.shown s2 = InitParaview.shown s0 ++ [n + 1; n + 3; n + 5; n + 7] /\
  InitParaview.display s2 = InitParaview.display s0 ++ colours n ++ colours (n + 4).
Proof.
  cbv zeta. rewrite !init_paraview_session.
  cbn [InitParaview.proxies InitParaview.active InitParaview.shown
       InitParaview.display].
  rewrite !length_app.
  replace (List.length (pipeline script_dir read
                          (List.length (InitParaview.proxies s0)))) with 4
    by reflexivity.
  rewrite <- !app_assoc. unfold colours. cbn [app].
  replace (List.length (InitParaview.proxies s0) + 4 + 1)
    with (List.length (InitParaview.proxies s0) + 5) by lia.
  replace (List.length (InitParaview.proxies s0) + 4 + 3)
    with (List.length (InitParaview.proxies s0) + 7) by lia.
  repeat split.
Qed.

(** ** The fields that are read *)

Lemma for_each_rel {A A' S} (body : S -> A -> M S) (body' : S -> A' -> M S) xs xs' :
  Forall2 (fun x x' => forall s, body s x = body' s x') xs xs' ->
  forall s, for_each body xs s = for_each body' xs' s.
Proof.
  induction 1 as [|x x' xs xs' Hx _ IH]; intros s; [reflexivity|].
  cbn [for_each]. rewrite Hx. apply bind_ext. apply IH.
Qed.

Lemma fiber_step_fields fib fib' v :
  getitem fib "n_nodes_" = getitem fib' "n_nodes_" ->
  getitem fib "x_" = getitem fib' "x_" ->
  FiberReader.fiber_step v fib = FiberReader.fiber_step v fib'.
Proof.
  intros Hn Hx. unfold FiberReader.fiber_step. rewrite Hn.
  apply bind_ext; intros n_nodes. apply bind_ext; intros lines'.
  apply bind_ext; intros pl'. apply bind_ext; intros indices.
  apply for_each_rel. apply Forall2_diag. intros i _ s.
  unfold FiberReader.point_step. now rewrite Hx.
Qed.

(** X15.  The fiber reader takes nothing from a fiber record but its fields
    [n_nodes_] and [x_]: two frames whose fiber records agree, one by one,
    on what these two subscripts give make the same run, with the same
    slices and the same output or fault, whatever other fields the records
    have. *)
Theorem fiber_reader_fields_read
    (frame frame' : pyval) (items items' : list pyval) :
  items_of "fibers" frame = Ok items ->
  items_of "fibers" frame' = Ok items' ->
  Forall2 (fun fib fib' => getitem fib "n_nodes_" = getitem fib' "n_nodes_" /\
                           getitem fib "x_" = getitem fib' "x_") items items' ->
  FiberReader.output frame = FiberReader.output frame'.
Proof.
  intros Hi Hi' Hrel.
  rewrite (fiber_output_items _ _ Hi), (fiber_output_items _ _ Hi').
  f_equal. apply for_each_rel. clear Hi Hi'.
  induction Hrel as [|fib fib' items items' [Hn Hx] _ IH]; constructor;
    [|exact IH].
  intros s. now apply fiber_step_fields.
Qed.

Lemma fiber_reader_fields_read_witness :
  FiberReader.output Sample2.frame_second =
  FiberReader.output Sample2.frame_more_fields.
Proof.
  apply (fiber_reader_fields_read Sample2.frame_second Sample2.frame_more_fields
           [Sample.fiber 1 [Sample.f 7 0; Sample.f 8 0; Sample.f 9 0]]
           [Sample2.fiber_more_fields]).
  - reflexivity.
  - reflexivity.
  - apply Forall2_cons; [|apply Forall2_nil]. split; reflexivity.
Defined.

(** X16.  The body reader takes nothing from a body record but its field
    [position_]: two frames whose body records agree, one by one, on what
    this subscript gives make the same run, whatever other fields the
    records have. *)
Theorem body_reader_fields_read
    (frame frame' : pyval) (items items' : list pyval) :
  items_of "bodies" frame = Ok items ->
  items_of "bodies" frame' = Ok items' ->
  Forall2 (fun body body' => getitem body "position_" = getitem body' "position_")
          items items' ->
  BodyReader.output frame = BodyReader.output frame'.
Proof.
  intros Hi Hi' Hrel.
  rewrite (body_output_items _ _ Hi), (body_output_items _ _ Hi').
  f_equal. apply for_each_rel. clear Hi Hi'.
  induction Hrel as [|body body' items items' Hp _ IH]; constructor; [|exact IH].
  intros s. unfold BodyReader.body_step, BodyReader.sphere_of. now rewrite Hp.
Qed.

Lemma body_reader_fields_read_witness :
  BodyReader.output Sample2.frame_second =
  BodyReader.output Sample2.frame_more_fields.
Proof.
  apply (body_reader_fields_read Sample2.frame_second Sample2.frame_more_fields
           [Sample.body [Sample.f 2 0; Sample.f 2 0; PyInt 5]]
           [Sample2.body_more_fields]).
  - reflexivity.
  - reflexivity.
  - apply Forall2_cons; [|apply Forall2_nil]. reflexivity.
Defined.
